(** * exo worker: MLX backend availability and resource polling

    A shallow embedding of two modules of the exo worker,

    - [exo/worker/engines/mlx/availability.py] (module [Availability]),
    - [exo/worker/utils/profile.py]            (module [Profile]),

    together with the properties of their specification that concern the
    lazily cached backend handle, the generic metrics sampler, the memory
    override and the two polling loops.

    Conventions of the embedding.
    - A Python call that may raise is a [completion]: a value or an
      exception.  Exception classes are the constructors of [exn].
    - A Python float is a binary64 floating-point number ([float], the
      kernel's primitive floats), so 0.0, -0.0, infinities and NaN are
      values of the model.  What the interpreter computes from floats
      (the sum of a list and its division by the length) is a field of
      the [Interpreter] record, as it depends on the interpreter's
      version.  Durations in seconds are rationals ([Q]).
    - Everything the code obtains from outside (the platform name, the
      import system, psutil, macmon, the process environment, the sink) is
      a field of an environment record; the code under study is a function
      of that record.
    - The logger and [anyio.sleep] are taken not to raise, and
      cancellation of the task that runs a loop is not modelled: the
      statements are about a loop that is left alone. *)

From Stdlib Require Import ZArith QArith List String Ascii Lia.
From Stdlib Require Import PrimFloat Uint63.
From stdpp Require Import base option list strings gmap.

Open Scope string_scope.
Open Scope list_scope.

(** ** Exceptions and completions *)

(** The exception classes that the two modules raise, catch or can meet. *)
Inductive exn : Type :=
| MacMonError                        (* exo.worker.utils.macmon.MacMonError *)
| TimeoutError                       (* asyncio.TimeoutError *)
| MlxUnavailableError (msg : string) (* availability.MlxUnavailableError *)
| ImportError                        (* and ModuleNotFoundError *)
| AttributeError
| ValueError
| NotImplementedError
| PsutilError                        (* psutil.Error and its subclasses *)
| OtherError (name : string).        (* any other exception class *)

#[global] Instance exn_eq_dec : EqDecision exn.
Proof. solve_decision. Defined.

(** How a call ends: with a value or with a raised exception. *)
Inductive completion (A : Type) : Type :=
| Done (a : A)
| Raise (e : exn).
Arguments Done {A} a.
Arguments Raise {A} e.

(** [str.lower()] on ASCII letters. *)
Definition lower_ascii (c : ascii) : ascii :=
  let n := nat_of_ascii c in
  if (65 <=? n)%nat && (n <=? 90)%nat then ascii_of_nat (n + 32) else c.

Fixpoint lower (s : string) : string :=
  match s with
  | EmptyString => EmptyString
  | String c s' => String (lower_ascii c) (lower s')
  end.

(** ** availability.py *)
Module Availability.

(** A Python object reference (function objects of the MLX modules). *)
Definition pyobj : Type := nat.

(** The [SimpleNamespace] built by [_build_backend].  [self_id] is the
    identity of the namespace object itself: each construction allocates
    a fresh one. *)
Record Backend : Type := mkBackend {
  self_id : nat;
  initialize_mlx : pyobj;
  mlx_force_oom : pyobj;
  mlx_generate : pyobj;
  warmup_inference : pyobj
}.

#[global] Instance Backend_eq_dec : EqDecision Backend.
Proof. solve_decision. Defined.

(** What the loader observes of its host at one call: the platform name
    and the import system.  An imported module is its namespace. *)
Record Host : Type := mkHost {
  platform_system : string;
  import_module : string -> completion (gmap string pyobj)
}.

(** Observable actions of the loader. *)
Inductive event : Type :=
| EvPlatformSystem               (* platform.system() *)
| EvImportModule (name : string) (* importlib.import_module(name) *)
| EvLogWarning (msg : string).   (* logger.warning(msg) *)

#[global] Instance event_eq_dec : EqDecision event.
Proof. solve_decision. Defined.

(** The state of the process as far as the loader is concerned: the
    function attribute [load_mlx_backend._cached] ([None] while the
    attribute does not exist), the object allocator and the actions taken
    so far. *)
Record Process : Type := mkProcess {
  cached : option Backend;
  next_id : nat;
  log : list event
}.

Definition fresh_process : Process :=
  {| cached := None; next_id := 0; log := [] |}.

Definition record (ev : event) (p : Process) : Process :=
  {| cached := cached p; next_id := next_id p; log := log p ++ [ev] |}.

Definition generate_module : string := "exo.worker.engines.mlx.generator.generate".
Definition utils_mlx_module : string := "exo.worker.engines.mlx.utils_mlx".

Definition requires_macos (system : string) : string :=
  ("MLX backend requires macOS; current platform is '" +:+ system +:+ "'.")%string.
Definition dependencies_missing : string :=
  "MLX dependencies are missing. Install MLX on macOS to run inference.".
Definition unavailable_warning : string :=
  "MLX backend unavailable on this platform.".

(** Attribute access on a module object. *)
Definition getattr (m : gmap string pyobj) (name : string) : completion pyobj :=
  match m !! name with
  | Some o => Done o
  | None => Raise AttributeError
  end.

(** The [try: ... except ImportError as exc: raise MlxUnavailableError]
    block of [_build_backend]: the two imports, in order. *)
Definition import_helpers (h : Host) (p : Process)
  : completion (gmap string pyobj * gmap string pyobj) * Process :=
  let p1 := record (EvImportModule generate_module) p in
  match import_module h generate_module with
  | Raise ImportError => (Raise (MlxUnavailableError dependencies_missing), p1)
  | Raise e => (Raise e, p1)
  | Done generate =>
      let p2 := record (EvImportModule utils_mlx_module) p1 in
      match import_module h utils_mlx_module with
      | Raise ImportError => (Raise (MlxUnavailableError dependencies_missing), p2)
      | Raise e => (Raise e, p2)
      | Done utils_mlx => (Done (generate, utils_mlx), p2)
      end
  end.

(** [SimpleNamespace(initialize_mlx=utils_mlx.initialize_mlx, ...)]: the
    keyword arguments are evaluated in source order, then the namespace
    object is allocated. *)
Definition make_namespace (generate utils_mlx : gmap string pyobj) (p : Process)
  : completion Backend * Process :=
  match getattr utils_mlx "initialize_mlx" with
  | Raise e => (Raise e, p)
  | Done f1 =>
  match getattr utils_mlx "mlx_force_oom" with
  | Raise e => (Raise e, p)
  | Done f2 =>
  match getattr generate "mlx_generate" with
  | Raise e => (Raise e, p)
  | Done f3 =>
  match getattr generate "warmup_inference" with
  | Raise e => (Raise e, p)
  | Done f4 =>
      (Done (mkBackend (next_id p) f1 f2 f3 f4),
       {| cached := cached p; next_id := S (next_id p); log := log p |})
  end end end end.

Definition _build_backend (h : Host) (p : Process) : completion Backend * Process :=
  let p1 := record EvPlatformSystem p in
  let system := lower (platform_system h) in
  if negb (String.eqb system "darwin") then
    (* the f-string calls platform.system() once more *)
    (Raise (MlxUnavailableError (requires_macos (platform_system h))),
     record EvPlatformSystem p1)
  else
    match import_helpers h p1 with
    | (Raise e, p2) => (Raise e, p2)
    | (Done (generate, utils_mlx), p2) => make_namespace generate utils_mlx p2
    end.

Definition is_MlxUnavailableError (e : exn) : bool :=
  match e with MlxUnavailableError _ => true | _ => false end.

Definition load_mlx_backend (h : Host) (p : Process) : completion Backend * Process :=
  let after_if : completion unit * Process :=
    match cached p with
    | None => (* not hasattr(load_mlx_backend, "_cached") *)
        match _build_backend h p with
        | (Done b, p1) =>
            (Done tt, {| cached := Some b; next_id := next_id p1; log := log p1 |})
        | (Raise e, p1) =>
            if is_MlxUnavailableError e
            then (Raise e, record (EvLogWarning unavailable_warning) p1)
            else (Raise e, p1)
        end
    | Some _ => (Done tt, p)
    end in
  match after_if with
  | (Raise e, p1) => (Raise e, p1)
  | (Done _, p1) =>
      match cached p1 with
      | Some b => (Done b, p1)
      | None => (Raise AttributeError, p1)
      end
  end.

(** A sequence of calls made by the process, one host observation each. *)
Fixpoint load_calls (hs : list Host) (p : Process)
  : list (completion Backend) * Process :=
  match hs with
  | [] => ([], p)
  | h :: hs' =>
      let '(r, p1) := load_mlx_backend h p in
      let '(rs, p2) := load_calls hs' p1 in
      (r :: rs, p2)
  end.

(** The host cannot provide the backend: the platform predicate fails, or
    one of the two imports raises [ImportError]. *)
Definition platform_fails (h : Host) : Prop :=
  lower (platform_system h) <> "darwin".

Definition resolution_fails (h : Host) : Prop :=
  lower (platform_system h) = "darwin" /\
  (import_module h generate_module = Raise ImportError \/
   (exists g, import_module h generate_module = Done g) /\
   import_module h utils_mlx_module = Raise ImportError).

Definition unavailable (h : Host) : Prop := platform_fails h \/ resolution_fails h.

(** The message of the [MlxUnavailableError] raised on host [h]. *)
Definition failure_message (h : Host) : string :=
  if String.eqb (lower (platform_system h)) "darwin"
  then dependencies_missing
  else requires_macos (platform_system h).

(** The actions of one full resolution attempt on host [h]. *)
Definition attempt_log (h : Host) : list event :=
  log (snd (_build_backend h fresh_process)).

Definition is_warning (ev : event) : bool :=
  match ev with EvLogWarning _ => true | _ => false end.

Definition warnings (l : list event) : nat := length (List.filter is_warning l).

End Availability.

(** ** profile.py *)
Module Profile.

(** *** Data model *)

(** [macmon.TempMetrics] and [macmon.Metrics]; a usage field is a pair
    (count, percentage). *)
Record TempMetrics : Type := mkTempMetrics {
  cpu_temp_avg : float;
  gpu_temp_avg : float
}.

Record Metrics : Type := mkMetrics {
  all_power : float;
  ane_power : float;
  cpu_power : float;
  ecpu_usage : Z * float;
  gpu_power : float;
  gpu_ram_power : float;
  gpu_usage : Z * float;
  pcpu_usage : Z * float;
  ram_power : float;
  sys_power : float;
  temp : TempMetrics;
  timestamp : string
}.

(** Modelled from the spec: [MemoryPerformanceProfile] is declared in
    exo.shared.types.profiling, which is not part of the sources at hand.
    The spec describes it as derived from host memory state and reporting
    a memory ceiling in bytes. *)
Record MemoryPerformanceProfile : Type := mkMemoryProfile {
  memory_total : Z
}.

Record SystemPerformanceProfile : Type := mkSystemProfile {
  sys_gpu_usage : float;
  sys_temp : float;
  sys_sys_power : float;
  sys_pcpu_usage : float;
  sys_ecpu_usage : float;
  sys_ane_power : float
}.

Record NodePerformanceProfile : Type := mkNodeProfile {
  model_id : string;
  chip_id : string;
  friendly_name : string;
  network_interfaces : list string;
  memory : MemoryPerformanceProfile;
  system : SystemPerformanceProfile
}.

(** *** The world outside the module *)

(** One psutil temperature reading ([shwtemp]); [current] may be [None]. *)
Record shwtemp : Type := mkShwtemp {
  label : string;
  current : option float
}.

(** What psutil reports when asked at one moment.  The dictionary of
    [sensors_temperatures] is kept in its iteration order. *)
Record Psutil : Type := mkPsutil {
  cpu_percent : float;
  cpu_count : option Z;
  sensors_temperatures : completion (list (string * list shwtemp));
  virtual_memory_total : completion Z
}.

(** What the code relies on of the Python interpreter it runs on.
    - [int_max_str_digits] is [sys.get_int_max_str_digits()], the limit
      on the digits [int] converts (4300 by default, 0 for no limit and
      on interpreters without the limit).
    - [int_non_ascii s] is [int(s)] for a [str] that holds a non-ASCII
      character (Unicode digits and spaces are accepted there); this
      part of [int] is not modelled.
    - [float_mean l] is [float(sum(l) / len(l))] for a non-empty list of
      floats, in the interpreter's arithmetic: each operation rounds,
      and [sum] adds from the left on older interpreters and with a
      compensation term on newer ones. *)
Record Interpreter : Type := mkInterpreter {
  int_max_str_digits : Z;
  int_non_ascii : string -> completion Z;
  float_mean : list float -> float
}.

(** Everything the polling code consults, indexed by the tick of the loop
    that asks.  [await_seconds i] is the time the awaited steps of tick
    [i] take; [mb_in_bytes n] stands for [Memory.from_mb(n).in_bytes] of
    exo.shared.types.memory, which is not part of the sources at hand. *)
Record World : Type := mkWorld {
  python : Interpreter;
  platform_system : string;
  environ : nat -> gmap string string;
  macmon_get_metrics_async : nat -> completion (option Metrics);
  psutil : nat -> Psutil;
  get_network_interfaces : nat -> completion (list string);
  get_model_and_chip : nat -> completion (string * string);
  get_friendly_name : nat -> completion string;
  mb_in_bytes : Z -> Z;
  await_seconds : nat -> Q
}.

(** *** Observable actions and the monad of the polling code *)

Inductive event : Type :=
| EvGetMetrics                            (* await get_metrics_async() *)
| EvNetworkInterfaces                     (* get_network_interfaces() *)
| EvModelAndChip                          (* await get_model_and_chip() *)
| EvFriendlyName                          (* await get_friendly_name() *)
| EvGetenv (name : string)                (* os.getenv(name) *)
| EvFromPsutil (override : option Z)      (* MemoryPerformanceProfile.from_psutil *)
| EvCallbackMemory (p : MemoryPerformanceProfile)  (* await callback(mem) *)
| EvCallbackNode (p : NodePerformanceProfile)      (* await callback(profile) *)
| EvLogWarning (msg : string)             (* logger.warning *)
| EvLogError (msg : string) (e : exn)     (* logger.opt(exception=e).error *)
| EvSleep (seconds : Q).                  (* await anyio.sleep(seconds) *)

(** A computation: how it ends and the actions it took, in order. *)
Definition Py (A : Type) : Type := completion A * list event.

Definition ret {A} (a : A) : Py A := (Done a, []).

Definition bind {A B} (m : Py A) (k : A -> Py B) : Py B :=
  match m with
  | (Done a, t) => let '(c, t') := k a in (c, t ++ t')
  | (Raise e, t) => (Raise e, t)
  end.

Definition emit (ev : event) : Py unit := (Done tt, [ev]).
Definition lift {A} (c : completion A) : Py A := (c, []).
Definition call {A} (ev : event) (c : completion A) : Py A :=
  bind (emit ev) (fun _ => lift c).

(** [Py] is a monad; stdpp's notations [x ← m; k] and [m;; k] are used
    for sequencing. *)
#[global] Instance Py_ret : MRet Py := @ret.
#[global] Instance Py_bind : MBind Py := fun A B k m => bind m k.

(** [try: body except <handled>: handler].  [handler e] is [None] when no
    except clause matches [e]. *)
Definition try_except {A} (body : Py A) (handler : exn -> option (Py A)) : Py A :=
  match body with
  | (Raise e, t) =>
      match handler e with
      | Some h => let '(c, t') := h in (c, t ++ t')
      | None => (Raise e, t)
      end
  | (Done a, t) => (Done a, t)
  end.

(** [try: body finally: fin].  The finally block runs however the body
    ends, also when it ends by [return]; an exception of the finally
    block replaces the body's completion. *)
Definition try_finally {A} (body : Py A) (fin : Py unit) : Py A :=
  let '(c, t) := body in
  match fin with
  | (Done _, t') => (c, t ++ t')
  | (Raise e, t') => (Raise e, t ++ t')
  end.

(** How one iteration of a [while True] body ends when it does not raise:
    it falls through to the next iteration or executes [return]. *)
Inductive ctrl : Type := Continue | Return.

(** The state of a polling task (the spec's state machine): still in the
    loop and about to run tick [next], returned, or ended by an exception
    that left the loop. *)
Inductive loop_state : Type :=
| Running (next : nat)
| Stopped
| Crashed (e : exn).

(** [while True: body], run for at most [fuel] iterations from tick [i]. *)
Fixpoint while_true (fuel : nat) (body : nat -> Py ctrl) (i : nat)
  : loop_state * list event :=
  match fuel with
  | O => (Running i, [])
  | S fuel' =>
      match body i with
      | (Done Continue, t) =>
          let '(s, t') := while_true fuel' body (S i) in (s, t ++ t')
      | (Done Return, t) => (Stopped, t)
      | (Raise e, t) => (Crashed e, t)
      end
  end.

(** *** get_metrics_async and the generic sampler *)

(** [x or 0] on an optional integer. *)
Definition or_zero (x : option Z) : Z :=
  match x with
  | Some n => if (n =? 0)%Z then 0%Z else n
  | None => 0%Z
  end.

(** The list comprehension of [_collect_generic_metrics]. *)
Definition flat_temps (temps : list (string * list shwtemp)) : list float :=
  concat (map (fun readings => omap current readings) (map snd temps)).

(** [float(sum(l) / len(l)) if l else 0.0]. *)
Definition average (py : Interpreter) (l : list float) : float :=
  match l with
  | [] => 0%float
  | _ :: _ => float_mean py l
  end.

Definition _collect_generic_metrics (py : Interpreter) (ps : Psutil)
  : completion Metrics :=
  let cpu_percent := cpu_percent ps in
  let logical_cpus := or_zero (cpu_count ps) in
  let avg_temp : completion float :=
    match sensors_temperatures ps with
    | Done temps => Done (average py (flat_temps temps))
    | Raise NotImplementedError => Done 0%float
    | Raise PsutilError => Done 0%float
    | Raise e => Raise e
    end in
  match avg_temp with
  | Raise e => Raise e
  | Done avg_temp =>
      Done {| all_power := 0;
              ane_power := 0;
              cpu_power := 0;
              ecpu_usage := (0%Z, 0%float);
              gpu_power := 0;
              gpu_ram_power := 0;
              gpu_usage := (0%Z, 0%float);
              pcpu_usage := (logical_cpus, cpu_percent);
              ram_power := 0;
              sys_power := 0;
              temp := {| cpu_temp_avg := avg_temp; gpu_temp_avg := avg_temp |};
              timestamp := "" |}
  end.

Definition get_metrics_async (w : World) (i : nat) : Py (option Metrics) :=
  emit EvGetMetrics;;
  let system := lower (platform_system w) in
  if String.eqb system "darwin" then
    lift (macmon_get_metrics_async w i)
  else
    m ← lift (_collect_generic_metrics (python w) (psutil w i));
    mret (Some m).

(** *** get_memory_profile *)

(** [int(s)] for an ASCII [str].  The whitespace that [int] skips at
    both ends is tab, line feed, vertical tab, form feed, carriage
    return and space. *)
Definition is_space (c : ascii) : bool :=
  let n := nat_of_ascii c in
  ((9 <=? n)%nat && (n <=? 13)%nat) || (n =? 32)%nat.

Definition digit_of (c : ascii) : option Z :=
  let n := nat_of_ascii c in
  if (48 <=? n)%nat && (n <=? 57)%nat then Some (Z.of_nat (n - 48)) else None.

Fixpoint lstrip (l : list ascii) : list ascii :=
  match l with
  | c :: l' => if is_space c then lstrip l' else l
  | [] => []
  end.

Definition strip (l : list ascii) : list ascii := rev (lstrip (rev (lstrip l))).

Fixpoint digits (acc : Z) (after_digit : bool) (l : list ascii) : option Z :=
  match l with
  | [] => if after_digit then Some acc else None
  | c :: l' =>
      match digit_of c with
      | Some d => digits (10 * acc + d)%Z true l'
      | None =>
          if Ascii.eqb c "_" && after_digit then digits acc false l' else None
      end
  end.

(** The syntax of a decimal integer and its value: surrounding
    whitespace is stripped, an optional sign follows, then decimal
    digits in which single underscores may separate digits. *)
Definition parse_int (s : string) : option Z :=
  match strip (list_ascii_of_string s) with
  | "-"%char :: l => Z.opp <$> digits 0 false l
  | "+"%char :: l => digits 0 false l
  | l => digits 0 false l
  end.

(** All characters of the string are ASCII. *)
Definition is_ascii (s : string) : bool :=
  forallb (fun c => (nat_of_ascii c <? 128)%nat) (list_ascii_of_string s).

(** The number of digit characters of the string (underscores, sign and
    whitespace do not count; leading zeros do). *)
Definition is_digit (c : ascii) : bool :=
  match digit_of c with Some _ => true | None => false end.

Definition digit_count (s : string) : Z :=
  Z.of_nat (length (List.filter is_digit (list_ascii_of_string s))).

(** The conversion is refused when the string has more than 640 digits
    and more digits than the interpreter's limit, if it has one. *)
Definition exceeds_digit_limit (py : Interpreter) (s : string) : bool :=
  (640 <? digit_count s)%Z && (0 <? int_max_str_digits py)%Z &&
  (int_max_str_digits py <? digit_count s)%Z.

(** [int(s)] for a [str]. *)
Definition int (py : Interpreter) (s : string) : completion Z :=
  if is_ascii s then
    match parse_int s with
    | Some n => if exceeds_digit_limit py s then Raise ValueError else Done n
    | None => Raise ValueError
    end
  else int_non_ascii py s.

(** Truth value of a string: non-empty. *)
Definition truthy (s : string) : bool :=
  match s with EmptyString => false | _ => true end.

(** Modelled from the spec: [MemoryPerformanceProfile.from_psutil] is
    declared in exo.shared.types.profiling, which is not part of the
    sources at hand.  By the spec the profile is derived from host memory
    state, and an override that is present fully replaces the detected
    total. *)
Definition from_psutil (ps : Psutil) (override_memory : option Z)
  : Py MemoryPerformanceProfile :=
  emit (EvFromPsutil override_memory);;
  detected ← lift (virtual_memory_total ps);
  mret {| memory_total := match override_memory with
                          | Some bytes => bytes
                          | None => detected
                          end |}.

Definition override_variable : string := "OVERRIDE_MEMORY_MB".

Definition get_memory_profile (w : World) (i : nat) : Py MemoryPerformanceProfile :=
  emit (EvGetenv override_variable);;
  let override_memory_env := environ w i !! override_variable in
  override_memory ←
    match override_memory_env with
    | Some s =>
        if truthy s then n ← lift (int (python w) s); mret (Some (mb_in_bytes w n))
        else mret None
    | None => mret None
    end;
  from_psutil (psutil w i) override_memory.

(** *** The memory loop *)

Definition memory_monitor_error : string := "Memory Monitor encountered error".

(** The [try] block of one tick of the memory loop. *)
Definition memory_body (callback : nat -> MemoryPerformanceProfile -> completion unit)
    (w : World) (i : nat) : Py ctrl :=
  mem ← get_memory_profile w i;
  call (EvCallbackMemory mem) (callback i mem);;
  mret Continue.

Definition memory_handler (e : exn) : option (Py ctrl) :=
  match e with
  | MacMonError => Some (emit (EvLogError memory_monitor_error e);; mret Continue)
  | _ => None
  end.

Definition memory_tick (callback : nat -> MemoryPerformanceProfile -> completion unit)
    (poll_interval_s : Q) (w : World) (i : nat) : Py ctrl :=
  try_finally
    (try_except (memory_body callback w i) memory_handler)
    (emit (EvSleep poll_interval_s)).

Definition start_polling_memory_metrics
    (callback : nat -> MemoryPerformanceProfile -> completion unit)
    (poll_interval_s : Q) (w : World) (fuel : nat) : loop_state * list event :=
  while_true fuel (memory_tick callback poll_interval_s w) 0.

(** *** The node loop *)

Definition timeout_warning : string :=
  "[resource_monitor] Operation timed out after 30s, skipping this cycle.".
Definition resource_monitor_error : string := "Resource Monitor encountered error".

(** The [NodePerformanceProfile(...)] expression handed to the sink. *)
Definition node_profile (metrics : Metrics) (network_interfaces : list string)
    (ids : string * string) (friendly_name : string)
    (memory_profile : MemoryPerformanceProfile) : NodePerformanceProfile :=
  {| model_id := fst ids;
     chip_id := snd ids;
     friendly_name := friendly_name;
     network_interfaces := network_interfaces;
     memory := memory_profile;
     system :=
       {| sys_gpu_usage := snd (gpu_usage metrics);
          sys_temp := gpu_temp_avg (temp metrics);
          sys_sys_power := sys_power metrics;
          sys_pcpu_usage := snd (pcpu_usage metrics);
          sys_ecpu_usage := snd (ecpu_usage metrics);
          sys_ane_power := ane_power metrics |} |}.

(** The [try] block of one tick of the node loop. *)
Definition node_body (callback : nat -> NodePerformanceProfile -> completion unit)
    (w : World) (i : nat) : Py ctrl :=
  metrics ← get_metrics_async w i;
  match metrics with
  | None => mret Return
  | Some metrics =>
      network_interfaces ← call EvNetworkInterfaces (get_network_interfaces w i);
      ids ← call EvModelAndChip (get_model_and_chip w i);
      friendly_name ← call EvFriendlyName (get_friendly_name w i);
      (* the memory profile is taken last *)
      memory_profile ← get_memory_profile w i;
      let profile :=
        node_profile metrics network_interfaces ids friendly_name memory_profile in
      call (EvCallbackNode profile) (callback i profile);;
      mret Continue
  end.

Definition node_handler (e : exn) : option (Py ctrl) :=
  match e with
  | TimeoutError => Some (emit (EvLogWarning timeout_warning);; mret Continue)
  | MacMonError => Some (emit (EvLogError resource_monitor_error e);; mret Continue)
  | _ => None
  end.

Definition node_poll_interval_s : Q := 1.

Definition node_tick (callback : nat -> NodePerformanceProfile -> completion unit)
    (w : World) (i : nat) : Py ctrl :=
  try_finally
    (try_except (node_body callback w i) node_handler)
    (emit (EvSleep node_poll_interval_s)).

Definition start_polling_node_metrics
    (callback : nat -> NodePerformanceProfile -> completion unit)
    (w : World) (fuel : nat) : loop_state * list event :=
  while_true fuel (node_tick callback w) 0.

(** *** Observations on traces *)

Definition is_sink (ev : event) : bool :=
  match ev with
  | EvCallbackMemory _ | EvCallbackNode _ => true
  | _ => false
  end.

Definition is_log (ev : event) : bool :=
  match ev with
  | EvLogWarning _ | EvLogError _ _ => true
  | _ => false
  end.

Definition is_sleep (ev : event) : bool :=
  match ev with EvSleep _ => true | _ => false end.

Definition count (f : event -> bool) (t : list event) : nat :=
  length (List.filter f t).

(** *** Faults of a tick *)

(** The sampler or the sink of the memory loop raises [MacMonError] on
    tick [i]. *)
Definition memory_fault (callback : nat -> MemoryPerformanceProfile -> completion unit)
    (w : World) (i : nat) : Prop :=
  fst (get_memory_profile w i) = Raise MacMonError \/
  exists mem, fst (get_memory_profile w i) = Done mem /\
              callback i mem = Raise MacMonError.

(** The exception classes each loop has an [except] clause for. *)
Definition memory_handles (e : exn) : bool :=
  match e with MacMonError => true | _ => false end.

Definition node_handles (e : exn) : bool :=
  match e with MacMonError | TimeoutError => true | _ => false end.

(** The steps of node tick [i] that precede the sink call all complete,
    and the metrics source yields a sample. *)
Definition reaches_sink (w : World) (i : nat) : Prop :=
  (exists m, fst (get_metrics_async w i) = Done (Some m)) /\
  (exists n, get_network_interfaces w i = Done n) /\
  (exists ids, get_model_and_chip w i = Done ids) /\
  (exists name, get_friendly_name w i = Done name) /\
  (exists mem, fst (get_memory_profile w i) = Done mem).

(** The sink of node tick [i] returns, or raises something the loop has
    an [except] clause for. *)
Definition sink_tolerated (callback : nat -> NodePerformanceProfile -> completion unit)
    (i : nat) : Prop :=
  forall p, callback i p = Done tt \/
            exists e, callback i p = Raise e /\ node_handles e = true.

(** *** The readings of the sensor subsystem, group by group *)



(** *** Either loop *)

Inductive polling_loop : Type :=
| MemoryLoop (callback : nat -> MemoryPerformanceProfile -> completion unit)
             (poll_interval_s : Q)
| NodeLoop (callback : nat -> NodePerformanceProfile -> completion unit).

Definition run (l : polling_loop) (w : World) (fuel : nat) : loop_state * list event :=
  match l with
  | MemoryLoop cb iv => start_polling_memory_metrics cb iv w fuel
  | NodeLoop cb => start_polling_node_metrics cb w fuel
  end.

Definition try_block (l : polling_loop) (w : World) (i : nat) : Py ctrl :=
  match l with
  | MemoryLoop cb _ => memory_body cb w i
  | NodeLoop cb => node_body cb w i
  end.

Definition handles (l : polling_loop) (e : exn) : bool :=
  match l with
  | MemoryLoop _ _ => memory_handles e
  | NodeLoop _ => node_handles e
  end.

End Profile.

(** ** Concrete hosts and worlds used to exercise the definitions *)
Module Scenarios.
Import Availability.

(** A Linux host: no import is ever attempted there. *)
Definition linux_host : Host :=
  {| platform_system := "Linux";
     import_module := fun _ => Raise ImportError |}.

(** A macOS host without MLX installed. *)
Definition mac_without_mlx : Host :=
  {| platform_system := "Darwin";
     import_module := fun _ => Raise ImportError |}.

(** A macOS host with both helper modules importable. *)
Definition mac_with_mlx : Host :=
  {| platform_system := "Darwin";
     import_module := fun name =>
       if String.eqb name generate_module
       then Done (<["mlx_generate" := 11%nat]> (<["warmup_inference" := 12%nat]> ∅))
       else Done (<["initialize_mlx" := 21%nat]> (<["mlx_force_oom" := 22%nat]> ∅)) |}.

Import Profile.

(** An interpreter with the default digit limit whose [sum] adds floats
    from the left, as CPython does before 3.12.  The scenarios below
    convert ASCII strings only. *)
Definition left_fold_mean (l : list float) : float :=
  PrimFloat.div (fold_left PrimFloat.add l 0%float)
                (PrimFloat.of_uint63 (Uint63.of_Z (Z.of_nat (length l)))).

Definition cpython : Interpreter :=
  {| int_max_str_digits := 4300;
     int_non_ascii := fun _ => Raise ValueError;
     float_mean := left_fold_mean |}.

Definition idle_metrics : Metrics :=
  {| all_power := 0; ane_power := 0; cpu_power := 0; ecpu_usage := (4%Z, 0%float);
     gpu_power := 0; gpu_ram_power := 0; gpu_usage := (10%Z, 0%float);
     pcpu_usage := (8%Z, 0%float); ram_power := 0; sys_power := 0;
     temp := {| cpu_temp_avg := 40; gpu_temp_avg := 40 |};
     timestamp := "2025-01-01T00:00:00Z" |}.

(** psutil on a machine with two sensor groups; one reading of the
    second group carries no value. *)
Definition two_groups : Psutil :=
  {| cpu_percent := 25;
     cpu_count := Some 8%Z;
     sensors_temperatures :=
       Done [("coretemp", [mkShwtemp "core0" (Some 40%float); mkShwtemp "core1" (Some 50%float)]);
             ("nvme", [mkShwtemp "composite" None; mkShwtemp "sensor1" (Some 60%float)])];
     virtual_memory_total := Done 17179869184%Z |}.

(** psutil on a machine without temperature sensors. *)
Definition no_sensors : Psutil :=
  {| cpu_percent := 25;
     cpu_count := None;
     sensors_temperatures := Raise NotImplementedError;
     virtual_memory_total := Done 17179869184%Z |}.

(** A Linux machine on which every collaborator answers, slowly: the
    awaited steps of each tick take 31 seconds. *)
Definition slow_linux : World :=
  {| python := cpython;
     Profile.platform_system := "Linux";
     environ := fun _ => ∅;
     macmon_get_metrics_async := fun _ => Raise MacMonError;
     psutil := fun _ => two_groups;
     get_network_interfaces := fun _ => Done ["eth0"];
     get_model_and_chip := fun _ => Done ("Unknown Model", "Unknown Chip");
     get_friendly_name := fun _ => Done "worker-1";
     mb_in_bytes := fun mb => (mb * 1048576)%Z;
     await_seconds := fun _ => 31%Q |}.

(** The same machine with the memory override set to 4096. *)
Definition overridden_linux : World :=
  {| python := cpython;
     Profile.platform_system := "Linux";
     environ := fun _ => <[override_variable := "4096"]> ∅;
     macmon_get_metrics_async := fun _ => Raise MacMonError;
     psutil := fun _ => two_groups;
     get_network_interfaces := fun _ => Done ["eth0"];
     get_model_and_chip := fun _ => Done ("Unknown Model", "Unknown Chip");
     get_friendly_name := fun _ => Done "worker-1";
     mb_in_bytes := fun mb => (mb * 1048576)%Z;
     await_seconds := fun _ => 0%Q |}.

(** The same machine with an override that is not a number. *)
Definition misconfigured_linux : World :=
  {| python := cpython;
     Profile.platform_system := "Linux";
     environ := fun _ => <[override_variable := "4GB"]> ∅;
     macmon_get_metrics_async := fun _ => Raise MacMonError;
     psutil := fun _ => two_groups;
     get_network_interfaces := fun _ => Done ["eth0"];
     get_model_and_chip := fun _ => Done ("Unknown Model", "Unknown Chip");
     get_friendly_name := fun _ => Done "worker-1";
     mb_in_bytes := fun mb => (mb * 1048576)%Z;
     await_seconds := fun _ => 0%Q |}.

(** A Mac whose metrics source behaves as [source] says. *)
Definition mac (source : nat -> completion (option Metrics)) : World :=
  {| python := cpython;
     Profile.platform_system := "Darwin";
     environ := fun _ => ∅;
     macmon_get_metrics_async := source;
     psutil := fun _ => no_sensors;
     get_network_interfaces := fun _ => Done ["en0"];
     get_model_and_chip := fun _ => Done ("Mac15,9", "Apple M3 Max");
     get_friendly_name := fun _ => Done "studio";
     mb_in_bytes := fun mb => (mb * 1048576)%Z;
     await_seconds := fun _ => 0%Q |}.

(** macmon times out on every tick. *)
Definition timing_out : nat -> completion (option Metrics) :=
  fun _ => Raise TimeoutError.

(** macmon faults on the first tick and has no more samples from the
    second tick on. *)
Definition fault_then_absent : nat -> completion (option Metrics) :=
  fun i => match i with O => Raise MacMonError | _ => Done None end.

(** macmon yields two samples and is absent from the third tick on. *)
Definition two_then_absent : nat -> completion (option Metrics) :=
  fun i => if (i <? 2)%nat then Done (Some idle_metrics) else Done None.

(** The override is set between the first and the second tick. *)
Definition late_override : World :=
  {| python := cpython;
     Profile.platform_system := "Linux";
     environ := fun i =>
       match i with O => ∅ | _ => <[override_variable := "4096"]> ∅ end;
     macmon_get_metrics_async := fun _ => Raise MacMonError;
     psutil := fun _ => two_groups;
     get_network_interfaces := fun _ => Done ["eth0"];
     get_model_and_chip := fun _ => Done ("Unknown Model", "Unknown Chip");
     get_friendly_name := fun _ => Done "worker-1";
     mb_in_bytes := fun mb => (mb * 1048576)%Z;
     await_seconds := fun _ => 0%Q |}.

(** Sinks. *)
Definition quiet_sink {P : Type} : nat -> P -> completion unit :=
  fun _ _ => Done tt.
Definition faulty_sink {P : Type} : nat -> P -> completion unit :=
  fun _ _ => Raise MacMonError.
Definition broken_sink {P : Type} : nat -> P -> completion unit :=
  fun _ _ => Raise (OtherError "KeyError").

End Scenarios.

(** ** Further notions used to state properties of the two modules *)
Module Notions.
Import Availability.

(** The host can provide the backend: the platform is darwin, both
    helper modules import and carry the four entry points. *)
Definition available (h : Host) : Prop :=
  lower (platform_system h) = "darwin" /\
  exists g u f1 f2 f3 f4,
    import_module h generate_module = Done g /\
    import_module h utils_mlx_module = Done u /\
    u !! "initialize_mlx" = Some f1 /\ u !! "mlx_force_oom" = Some f2 /\
    g !! "mlx_generate" = Some f3 /\ g !! "warmup_inference" = Some f4.

(** One of the four entry points is missing from its module. *)
Definition missing_entry_point (g u : gmap string pyobj) : Prop :=
  u !! "initialize_mlx" = None \/ u !! "mlx_force_oom" = None \/
  g !! "mlx_generate" = None \/ g !! "warmup_inference" = None.

Definition is_raise {A} (c : completion A) : Prop :=
  match c with Raise _ => True | Done _ => False end.

(** A macOS host whose utils module lacks [mlx_force_oom]. *)
Definition mac_missing_entry_point : Host :=
  {| platform_system := "Darwin";
     import_module := fun name =>
       if String.eqb name generate_module
       then Done (<["mlx_generate" := 11%nat]> (<["warmup_inference" := 12%nat]> ∅))
       else Done (<["initialize_mlx" := 21%nat]> ∅) |}.

(** A macOS host on which importing the generator module fails with an
    exception that is not an [ImportError]. *)
Definition mac_broken_generator : Host :=
  {| platform_system := "Darwin";
     import_module := fun name =>
       if String.eqb name generate_module
       then Raise (OtherError "RuntimeError")
       else Done (<["initialize_mlx" := 21%nat]> (<["mlx_force_oom" := 22%nat]> ∅)) |}.

Import Profile.

(** One tick of either loop, and the interval it sleeps. *)
Definition tick (l : polling_loop) (w : World) (i : nat) : Py ctrl :=
  match l with
  | MemoryLoop cb iv => memory_tick cb iv w i
  | NodeLoop cb => node_tick cb w i
  end.

Definition interval (l : polling_loop) : Q :=
  match l with
  | MemoryLoop _ iv => iv
  | NodeLoop _ => node_poll_interval_s
  end.

(** The [try] block of tick [i] neither returns nor raises a class the
    loop has no [except] clause for. *)
Definition survivable (l : polling_loop) (w : World) (i : nat) : Prop :=
  fst (try_block l w i) = Done Continue \/
  exists e, fst (try_block l w i) = Raise e /\ handles l e = true.

(** The sensor groups with the readings that carry no value removed. *)
Definition has_value (r : shwtemp) : bool :=
  match current r with Some _ => true | None => false end.

Definition without_unvalued (temps : list (string * list shwtemp))
  : list (string * list shwtemp) :=
  map (fun g => (fst g, List.filter has_value (snd g))) temps.

(** The exception classes the generic sampler swallows. *)
Definition sampler_swallows (e : exn) : bool :=
  match e with NotImplementedError | PsutilError => true | _ => false end.

(** A Linux machine whose psutil has no [sensors_temperatures]. *)
Definition sensorless_linux : World :=
  {| python := Scenarios.cpython;
     Profile.platform_system := "Linux";
     environ := fun _ => ∅;
     macmon_get_metrics_async := fun _ => Raise MacMonError;
     psutil := fun _ =>
       {| cpu_percent := 25; cpu_count := Some 8%Z;
          sensors_temperatures := Raise AttributeError;
          virtual_memory_total := Done 17179869184%Z |};
     get_network_interfaces := fun _ => Done ["eth0"];
     get_model_and_chip := fun _ => Done ("Unknown Model", "Unknown Chip");
     get_friendly_name := fun _ => Done "worker-1";
     mb_in_bytes := fun mb => (mb * 1048576)%Z;
     await_seconds := fun _ => 0%Q |}.


(** A Linux machine with the override variable set to the empty
    string. *)
Definition empty_override_linux : World :=
  {| python := Scenarios.cpython;
     Profile.platform_system := "Linux";
     environ := fun _ => <[override_variable := ""]> ∅;
     macmon_get_metrics_async := fun _ => Raise MacMonError;
     psutil := fun _ => Scenarios.two_groups;
     get_network_interfaces := fun _ => Done ["eth0"];
     get_model_and_chip := fun _ => Done ("Unknown Model", "Unknown Chip");
     get_friendly_name := fun _ => Done "worker-1";
     mb_in_bytes := fun mb => (mb * 1048576)%Z;
     await_seconds := fun _ => 0%Q |}.

End Notions.

(** ** Properties of availability.py *)
Module AvailabilityFacts.
Import Availability Scenarios.

Example load_on_mac :
  load_mlx_backend mac_with_mlx fresh_process =
  (Done (mkBackend 0 21 22 11 12),
   {| cached := Some (mkBackend 0 21 22 11 12);
      next_id := 1;
      log := [EvPlatformSystem; EvImportModule generate_module;
              EvImportModule utils_mlx_module] |}).
Proof. vm_compute. reflexivity. Qed.

Example load_on_linux :
  load_mlx_backend linux_host fresh_process =
  (Raise (MlxUnavailableError
            "MLX backend requires macOS; current platform is 'Linux'."),
   {| cached := None;
      next_id := 0;
      log := [EvPlatformSystem; EvPlatformSystem;
              EvLogWarning unavailable_warning] |}).
Proof. vm_compute. reflexivity. Qed.

(** *** The cache *)

(** A call that returns leaves its result in the cache. *)
Lemma load_success_caches h p b p1 :
  load_mlx_backend h p = (Done b, p1) -> cached p1 = Some b.
Proof.
  unfold load_mlx_backend. destruct (cached p) as [b0|] eqn:Hc.
  - rewrite Hc. intros [= <- <-]. exact Hc.
  - destruct (_build_backend h p) as [[b1|e] p2].
    + cbn. intros [= <- <-]. reflexivity.
    + destruct (is_MlxUnavailableError e); discriminate.
Qed.

(** With a cached handle the call is the identity on the process. *)
Lemma load_with_cache h p b :
  cached p = Some b -> load_mlx_backend h p = (Done b, p).
Proof. intros Hc. unfold load_mlx_backend. rewrite Hc. cbn. rewrite Hc. reflexivity. Qed.

(** C5: after a first successful call every later call, whatever the host
    then looks like, returns the very same handle (same object identity
    and entry points) and leaves the process untouched: its log gains no
    platform query and no import, and no new object is allocated. *)
Theorem load_mlx_backend_cached_identical h p b p1 :
  load_mlx_backend h p = (Done b, p1) ->
  forall hs : list Host,
    load_calls hs p1 = (map (fun _ => Done b) hs, p1).
Proof.
  intros Hfirst hs. apply load_success_caches in Hfirst.
  induction hs as [|h' hs IH]; cbn.
  - reflexivity.
  - rewrite (load_with_cache h' p1 b Hfirst), IH. reflexivity.
Qed.

Lemma load_mlx_backend_cached_identical_witness :
  load_calls [linux_host; mac_without_mlx; mac_with_mlx]
    (snd (load_mlx_backend mac_with_mlx fresh_process)) =
  (map (fun _ => Done (mkBackend 0 21 22 11 12))
     [linux_host; mac_without_mlx; mac_with_mlx],
   snd (load_mlx_backend mac_with_mlx fresh_process)).
Proof.
  apply (load_mlx_backend_cached_identical mac_with_mlx fresh_process).
  vm_compute. reflexivity.
Defined.

(** *** Failure *)

Lemma build_on_unavailable h p :
  unavailable h ->
  _build_backend h p =
  (Raise (MlxUnavailableError (failure_message h)),
   {| cached := cached p; next_id := next_id p;
      log := log p ++ attempt_log h |}).
Proof.
  unfold attempt_log, _build_backend, failure_message, import_helpers.
  intros [Hp | [Hd [Hg | [[g Hg] Hu]]]].
  - assert (String.eqb (lower (platform_system h)) "darwin" = false) as ->
      by (apply String.eqb_neq; exact Hp).
    unfold record. cbn. rewrite <- app_assoc. reflexivity.
  - rewrite Hd, Hg. unfold record. cbn. rewrite <- app_assoc. reflexivity.
  - rewrite Hd, Hg, Hu. unfold record. cbn. rewrite <- !app_assoc. reflexivity.
Qed.

(** One failing call: the error, the state and the log it leaves. *)
Lemma load_on_unavailable h p :
  cached p = None -> unavailable h ->
  load_mlx_backend h p =
  (Raise (MlxUnavailableError (failure_message h)),
   {| cached := None; next_id := next_id p;
      log := log p ++ attempt_log h ++ [EvLogWarning unavailable_warning] |}).
Proof.
  intros Hc Hu. unfold load_mlx_backend.
  rewrite Hc, (build_on_unavailable h p Hu). cbn.
  unfold record. cbn. rewrite Hc, <- app_assoc. reflexivity.
Qed.

(** A resolution attempt itself logs no warning and starts with the
    platform query. *)
Lemma attempt_log_shape h :
  unavailable h ->
  warnings (attempt_log h) = 0 /\ head (attempt_log h) = Some EvPlatformSystem.
Proof.
  unfold attempt_log, _build_backend, import_helpers.
  intros [Hp | [Hd [Hg | [[g Hg] Hu]]]].
  - assert (String.eqb (lower (platform_system h)) "darwin" = false) as ->
      by (apply String.eqb_neq; exact Hp).
    cbn. split; reflexivity.
  - rewrite Hd, Hg. cbn. split; reflexivity.
  - rewrite Hd, Hg, Hu. cbn. split; reflexivity.
Qed.

(** C6, the claim as stated, fails: a resolution can fail without the
    call raising [MlxUnavailableError].  On darwin, when a module lacks
    an entry point the call raises [AttributeError], and when an import
    raises something that is not an [ImportError] the call raises that
    exception unchanged; in both cases no warning is logged. *)
Lemma resolution_failure_not_always_unavailable :
  lower (platform_system Notions.mac_missing_entry_point) = "darwin" /\
  fst (load_mlx_backend Notions.mac_missing_entry_point fresh_process) =
    Raise AttributeError /\
  warnings (log (snd (load_mlx_backend Notions.mac_missing_entry_point
                        fresh_process))) = 0 /\
  lower (platform_system Notions.mac_broken_generator) = "darwin" /\
  fst (load_mlx_backend Notions.mac_broken_generator fresh_process) =
    Raise (OtherError "RuntimeError") /\
  warnings (log (snd (load_mlx_backend Notions.mac_broken_generator
                        fresh_process))) = 0.
Proof. vm_compute. repeat split; reflexivity. Qed.

(** C6 (amended): in a process without a cached handle, every call of a
    sequence of calls made on hosts where the platform predicate fails
    or an import of one of the two helper modules raises [ImportError]
    raises [MlxUnavailableError]; nothing is cached, so each call
    performs a whole resolution attempt again (its actions are those of
    [_build_backend] on that host, starting with the platform query), and
    each call adds exactly one warning to the log. *)
Theorem load_mlx_backend_failure_never_cached (hs : list Host) (p : Process) :
  cached p = None ->
  Forall unavailable hs ->
  exists p',
    load_calls hs p =
      (map (fun h => Raise (MlxUnavailableError (failure_message h))) hs, p') /\
    cached p' = None /\
    log p' =
      log p ++
      concat (map (fun h => attempt_log h ++ [EvLogWarning unavailable_warning]) hs) /\
    Forall (fun h =>
              warnings (attempt_log h ++ [EvLogWarning unavailable_warning]) = 1 /\
              head (attempt_log h) = Some EvPlatformSystem) hs.
Proof.
  intros Hc Hall. revert p Hc.
  induction Hall as [|h hs Hh Hall IH]; intros p Hc.
  - exists p. cbn. rewrite app_nil_r. repeat split; auto.
  - cbn [load_calls]. rewrite (load_on_unavailable h p Hc Hh).
    edestruct (IH {| cached := None; next_id := next_id p;
                     log := log p ++ attempt_log h ++ [EvLogWarning unavailable_warning] |})
      as (p' & Hrun & Hc' & Hlog & Hshape); [reflexivity|].
    exists p'. rewrite Hrun. cbn [map concat]. repeat split.
    + exact Hc'.
    + rewrite Hlog. cbn [log]. rewrite <- !app_assoc. reflexivity.
    + constructor; [|exact Hshape].
      destruct (attempt_log_shape h Hh) as [Hw Hhd]. split; [|exact Hhd].
      unfold warnings in *. rewrite List.filter_app, length_app, Hw. reflexivity.
Qed.

Lemma load_mlx_backend_failure_never_cached_witness :
  exists p',
    load_calls [linux_host; mac_without_mlx; linux_host] fresh_process =
      (map (fun h => Raise (MlxUnavailableError (failure_message h)))
         [linux_host; mac_without_mlx; linux_host], p') /\
    cached p' = None /\
    log p' =
      log fresh_process ++
      concat (map (fun h => attempt_log h ++ [EvLogWarning unavailable_warning])
                [linux_host; mac_without_mlx; linux_host]) /\
    Forall (fun h =>
              warnings (attempt_log h ++ [EvLogWarning unavailable_warning]) = 1 /\
              head (attempt_log h) = Some EvPlatformSystem)
      [linux_host; mac_without_mlx; linux_host].
Proof.
  apply (load_mlx_backend_failure_never_cached
           [linux_host; mac_without_mlx; linux_host] fresh_process).
  - reflexivity.
  - constructor; [left; unfold platform_fails; vm_compute; discriminate|].
    constructor; [right; split; [reflexivity | left; reflexivity]|].
    constructor; [left; unfold platform_fails; vm_compute; discriminate|].
    constructor.
Defined.

(** An import failure of another kind is not translated: it leaves the
    loader as it is, without a warning. *)
Example load_other_import_failure :
  load_mlx_backend
    {| platform_system := "Darwin";
       import_module := fun _ => Raise (OtherError "RuntimeError") |}
    fresh_process =
  (Raise (OtherError "RuntimeError"),
   {| cached := None; next_id := 0;
      log := [EvPlatformSystem; EvImportModule generate_module] |}).
Proof. vm_compute. reflexivity. Qed.

End AvailabilityFacts.

(** ** Properties of profile.py *)
Module ProfileFacts.
Import Profile Scenarios Notions.

#[local] Arguments get_memory_profile : simpl never.
#[local] Arguments get_metrics_async : simpl never.
#[local] Arguments node_profile : simpl never.
#[local] Arguments int : simpl never.

(** *** The monad and the loop combinator *)

Ltac py_unfold :=
  unfold call, emit, lift, mbind, Py_bind, mret, Py_ret, bind, ret in *.

Lemma count_app f t1 t2 : count f (t1 ++ t2) = count f t1 + count f t2.
Proof. unfold count. rewrite List.filter_app, length_app. reflexivity. Qed.

Lemma try_finally_emit {A} (body : Py A) ev :
  try_finally body (emit ev) = (fst body, snd body ++ [ev]).
Proof. destruct body. reflexivity. Qed.

(** With fuel [n] spent and the loop still running, the state after one
    more iteration is decided by tick [i + n]. *)
Lemma while_true_step body n : forall i t,
  while_true n body i = (Running (i + n), t) ->
  while_true (S n) body i =
  match body (i + n) with
  | (Done Continue, t') => (Running (i + S n), t ++ t')
  | (Done Return, t') => (Stopped, t ++ t')
  | (Raise e, t') => (Crashed e, t ++ t')
  end.
Proof.
  induction n as [|n IH]; intros i t.
  - cbn. intros H. assert (t = []) as -> by congruence. clear H.
    rewrite ?Nat.add_0_r.
    destruct (body i) as [[[|]|e] t0]; rewrite ?app_nil_r, ?Nat.add_1_r; reflexivity.
  - intros Hn. cbn [while_true] in Hn |- *.
    destruct (body i) as [[[|]|e] t0]; try discriminate.
    destruct (while_true n body (S i)) as [s' t'] eqn:Hrest.
    injection Hn as Hs Ht. subst s' t.
    replace (i + S n) with (S i + n) in Hrest |- * by lia.
    specialize (IH (S i) t' Hrest). cbn [while_true] in IH. rewrite IH.
    destruct (body (S i + n)) as [[[|]|e] t1]; rewrite <- ?app_assoc; try reflexivity.
    f_equal. f_equal. lia.
Qed.

(** Once the loop has stopped or crashed, more fuel changes nothing. *)
Lemma while_true_final body n : forall i s t k,
  while_true n body i = (s, t) ->
  (forall m, s <> Running m) ->
  while_true (n + k) body i = (s, t).
Proof.
  induction n as [|n IH]; intros i s t k; cbn.
  - intros [= <- <-] Hs. exfalso. apply (Hs i). reflexivity.
  - destruct (body i) as [[[|]|e] t0]; try (intros H _; exact H).
    destruct (while_true n body (S i)) as [s' t'] eqn:Hrest.
    intros [= <- <-] Hs. rewrite (IH _ _ _ k Hrest Hs). reflexivity.
Qed.

(** *** One tick, in terms of its [try] block *)

Lemma memory_tick_eq cb iv w i :
  memory_tick cb iv w i =
  match memory_body cb w i with
  | (Done c, t) => (Done c, t ++ [EvSleep iv])
  | (Raise MacMonError, t) =>
      (Done Continue, t ++ [EvLogError memory_monitor_error MacMonError; EvSleep iv])
  | (Raise e, t) => (Raise e, t ++ [EvSleep iv])
  end.
Proof.
  unfold memory_tick. rewrite try_finally_emit. unfold try_except.
  destruct (memory_body cb w i) as [[c|e] t]; [reflexivity|].
  destruct e; cbn; rewrite <- ?app_assoc; reflexivity.
Qed.

Lemma node_tick_eq cb w i :
  node_tick cb w i =
  match node_body cb w i with
  | (Done c, t) => (Done c, t ++ [EvSleep node_poll_interval_s])
  | (Raise TimeoutError, t) =>
      (Done Continue, t ++ [EvLogWarning timeout_warning; EvSleep node_poll_interval_s])
  | (Raise MacMonError, t) =>
      (Done Continue,
       t ++ [EvLogError resource_monitor_error MacMonError; EvSleep node_poll_interval_s])
  | (Raise e, t) => (Raise e, t ++ [EvSleep node_poll_interval_s])
  end.
Proof.
  unfold node_tick. rewrite try_finally_emit. unfold try_except.
  destruct (node_body cb w i) as [[c|e] t]; [reflexivity|].
  destruct e; cbn; rewrite <- ?app_assoc; reflexivity.
Qed.

(** The actions of [get_memory_profile]: the environment is read, then
    the profile is built unless the override does not parse. *)
Lemma get_memory_profile_trace w i :
  snd (get_memory_profile w i) = [EvGetenv override_variable] \/
  exists o, snd (get_memory_profile w i) = [EvGetenv override_variable; EvFromPsutil o].
Proof.
  unfold get_memory_profile, from_psutil. py_unfold.
  destruct (environ w i !! override_variable) as [s|]; cbn.
  - destruct (truthy s); cbn.
    + destruct (int (python w) s); cbn; [|left; reflexivity].
      destruct (virtual_memory_total (psutil w i)); cbn; right; eexists; reflexivity.
    + destruct (virtual_memory_total (psutil w i)); cbn; right; eexists; reflexivity.
  - destruct (virtual_memory_total (psutil w i)); cbn; right; eexists; reflexivity.
Qed.

Lemma memory_body_eq cb w i :
  memory_body cb w i =
  match get_memory_profile w i with
  | (Done mem, t) =>
      (match cb i mem with Done _ => Done Continue | Raise e => Raise e end,
       t ++ [EvCallbackMemory mem])
  | (Raise e, t) => (Raise e, t)
  end.
Proof.
  unfold memory_body. py_unfold.
  destruct (get_memory_profile w i) as [[mem|e] t]; [|reflexivity].
  destruct (cb i mem); cbn; rewrite ?app_nil_r; reflexivity.
Qed.

(** The [try] block of the memory loop neither logs nor sleeps. *)
Lemma memory_body_quiet cb w i :
  count is_log (snd (memory_body cb w i)) = 0 /\
  count is_sleep (snd (memory_body cb w i)) = 0.
Proof.
  rewrite memory_body_eq.
  destruct (get_memory_profile_trace w i) as [Ht | [o Ht]];
    destruct (get_memory_profile w i) as [[mem|e] t]; cbn in Ht |- *; subst t;
    split; reflexivity.
Qed.

Lemma memory_fault_raises cb w i :
  memory_fault cb w i -> fst (memory_body cb w i) = Raise MacMonError.
Proof.
  rewrite memory_body_eq.
  intros [Hs | (mem & Hs & Hcb)];
    destruct (get_memory_profile w i) as [[mem'|e] t]; cbn in Hs |- *;
    try discriminate; try congruence.
  injection Hs as ->. rewrite Hcb. reflexivity.
Qed.

(** *** Scenarios, evaluated *)

Example slow_linux_tick :
  node_tick quiet_sink slow_linux 0 =
  (Done Continue,
   [EvGetMetrics; EvNetworkInterfaces; EvModelAndChip; EvFriendlyName;
    EvGetenv override_variable; EvFromPsutil None;
    EvCallbackNode
      {| model_id := "Unknown Model"; chip_id := "Unknown Chip";
         friendly_name := "worker-1"; network_interfaces := ["eth0"];
         memory := {| memory_total := 17179869184 |};
         system := {| sys_gpu_usage := 0; sys_temp := 50;
                      sys_sys_power := 0; sys_pcpu_usage := 25;
                      sys_ecpu_usage := 0; sys_ane_power := 0 |} |};
    EvSleep 1]).
Proof. vm_compute. reflexivity. Qed.

Example parse_int_examples :
  parse_int "4096" = Some 4096%Z /\ parse_int " -12_000 " = Some (-12000)%Z /\
  parse_int "" = None /\ parse_int "4GB" = None /\ parse_int "1__0" = None.
Proof. vm_compute. repeat split; reflexivity. Qed.

Example misconfigured_memory_loop :
  start_polling_memory_metrics quiet_sink (1 # 2) misconfigured_linux 3 =
  (Crashed ValueError, [EvGetenv override_variable; EvSleep (1 # 2)]).
Proof. vm_compute. reflexivity. Qed.

Example fault_then_absent_run :
  start_polling_node_metrics quiet_sink (mac fault_then_absent) 5 =
  (Stopped,
   [EvGetMetrics; EvLogError resource_monitor_error MacMonError; EvSleep 1;
    EvGetMetrics; EvSleep 1]).
Proof. vm_compute. reflexivity. Qed.

(** *** The memory loop under recoverable faults *)

Lemma memory_fault_tick cb iv w i :
  memory_fault cb w i ->
  memory_tick cb iv w i =
  (Done Continue,
   snd (memory_body cb w i) ++
   [EvLogError memory_monitor_error MacMonError; EvSleep iv]).
Proof.
  intros Hf. apply memory_fault_raises in Hf. rewrite memory_tick_eq.
  destruct (memory_body cb w i) as [c t]. cbn in Hf |- *. subst c. reflexivity.
Qed.

(** C3: if on each of the first [n] ticks of the memory loop the sampler
    or the sink raises [MacMonError], then after those [n] ticks the
    loop is still running and about to start tick [n]: no fault has
    left the loop.  Each tick contributed the actions of its [try]
    block, then one error log entry, then the sleep of the poll
    interval; so the trace holds exactly [n] log entries and [n]
    sleeps. *)
Theorem memory_loop_survives_faults
    (cb : nat -> MemoryPerformanceProfile -> completion unit)
    (iv : Q) (w : World) (n : nat) :
  (forall i, i < n -> memory_fault cb w i) ->
  exists t,
    start_polling_memory_metrics cb iv w n = (Running n, t) /\
    t = concat (map (fun i => snd (memory_body cb w i) ++
                              [EvLogError memory_monitor_error MacMonError;
                               EvSleep iv]) (seq 0 n)) /\
    count is_log t = n /\
    count is_sleep t = n.
Proof.
  unfold start_polling_memory_metrics.
  induction n as [|n IH]; intros Hall.
  - exists []. repeat split; reflexivity.
  - destruct IH as (t & Hrun & Ht & Hlog & Hsleep); [intros i Hi; apply Hall; lia|].
    pose proof (while_true_step _ n 0 t Hrun) as Hstep. cbn [Nat.add] in Hstep.
    rewrite (memory_fault_tick cb iv w n (Hall n (Nat.lt_succ_diag_r n))) in Hstep.
    eexists. split; [exact Hstep|].
    destruct (memory_body_quiet cb w n) as [Hl Hs].
    split; [|split].
    + rewrite seq_S, map_app, concat_app, <- Ht. cbn. rewrite app_nil_r. reflexivity.
    + rewrite !count_app, Hlog, Hl. cbn. lia.
    + rewrite !count_app, Hsleep, Hs. cbn. lia.
Qed.

Lemma memory_loop_survives_faults_witness :
  exists t,
    start_polling_memory_metrics faulty_sink (1 # 2) slow_linux 4 = (Running 4, t) /\
    t = concat (map (fun i => snd (memory_body faulty_sink slow_linux i) ++
                              [EvLogError memory_monitor_error MacMonError;
                               EvSleep (1 # 2)]) (seq 0 4)) /\
    count is_log t = 4 /\
    count is_sleep t = 4.
Proof.
  apply (memory_loop_survives_faults faulty_sink (1 # 2) slow_linux 4).
  intros i _. right. exists {| memory_total := 17179869184 |}.
  split; reflexivity.
Defined.

(** *** The [try] block of the node loop *)

Lemma get_metrics_async_trace w i : snd (get_metrics_async w i) = [EvGetMetrics].
Proof.
  unfold get_metrics_async. py_unfold.
  destruct (String.eqb _ _); cbn.
  - destruct (macmon_get_metrics_async w i); reflexivity.
  - destruct (_collect_generic_metrics (python w) (psutil w i)); reflexivity.
Qed.

Lemma get_memory_profile_done w i mem :
  fst (get_memory_profile w i) = Done mem ->
  exists o, get_memory_profile w i =
            (Done mem, [EvGetenv override_variable; EvFromPsutil o]).
Proof.
  unfold get_memory_profile, from_psutil. py_unfold.
  destruct (environ w i !! override_variable) as [s|]; cbn.
  - destruct (truthy s); cbn.
    + destruct (int (python w) s); cbn; [|discriminate].
      destruct (virtual_memory_total (psutil w i)); cbn; [|discriminate].
      intros [= <-]. eexists; reflexivity.
    + destruct (virtual_memory_total (psutil w i)); cbn; [|discriminate].
      intros [= <-]. eexists; reflexivity.
  - destruct (virtual_memory_total (psutil w i)); cbn; [|discriminate].
    intros [= <-]. eexists; reflexivity.
Qed.

(** When the source has no sample the [try] block returns at once. *)
Lemma node_body_absent cb w i :
  fst (get_metrics_async w i) = Done None ->
  node_body cb w i = (Done Return, [EvGetMetrics]).
Proof.
  intros Hm. unfold node_body. pose proof (get_metrics_async_trace w i) as Ht.
  destruct (get_metrics_async w i) as [c t]. cbn in Hm, Ht. subst c t.
  reflexivity.
Qed.

(** When all steps before the sink call complete, the [try] block is the
    six actions below in this order, ending as the sink ends. *)
Lemma node_body_reaches_sink cb w i m nets ids name mem o :
  fst (get_metrics_async w i) = Done (Some m) ->
  get_network_interfaces w i = Done nets ->
  get_model_and_chip w i = Done ids ->
  get_friendly_name w i = Done name ->
  get_memory_profile w i = (Done mem, [EvGetenv override_variable; EvFromPsutil o]) ->
  node_body cb w i =
  (match cb i (node_profile m nets ids name mem) with
   | Done _ => Done Continue
   | Raise e => Raise e
   end,
   [EvGetMetrics; EvNetworkInterfaces; EvModelAndChip; EvFriendlyName;
    EvGetenv override_variable; EvFromPsutil o;
    EvCallbackNode (node_profile m nets ids name mem)]).
Proof.
  intros Hm Hn Hi Hf Hp. unfold node_body.
  pose proof (get_metrics_async_trace w i) as Ht.
  destruct (get_metrics_async w i) as [c t]. cbn in Hm, Ht. subst c t.
  py_unfold. rewrite Hn, Hi, Hf, Hp. cbn.
  destruct (cb i (node_profile m nets ids name mem)); reflexivity.
Qed.

(** Conversely, a [try] block that falls through has completed every
    step. *)
Lemma node_body_continue_inv cb w i :
  fst (node_body cb w i) = Done Continue ->
  exists m nets ids name mem o,
    fst (get_metrics_async w i) = Done (Some m) /\
    get_network_interfaces w i = Done nets /\
    get_model_and_chip w i = Done ids /\
    get_friendly_name w i = Done name /\
    get_memory_profile w i = (Done mem, [EvGetenv override_variable; EvFromPsutil o]) /\
    cb i (node_profile m nets ids name mem) = Done tt.
Proof.
  unfold node_body. py_unfold.
  destruct (get_metrics_async w i) as [[[m|]|e] t]; cbn; try discriminate.
  destruct (get_network_interfaces w i) as [nets|e] eqn:Hn; cbn; try discriminate.
  destruct (get_model_and_chip w i) as [ids|e] eqn:Hi; cbn; try discriminate.
  destruct (get_friendly_name w i) as [name|e] eqn:Hf; cbn; try discriminate.
  destruct (get_memory_profile w i) as [[mem|e] tm] eqn:Hp; cbn; try discriminate.
  destruct (cb i (node_profile m nets ids name mem)) as [[]|e] eqn:Hcb; cbn;
    try discriminate.
  intros _. destruct (get_memory_profile_done w i mem) as [o Ho];
    [rewrite Hp; reflexivity|].
  exists m, nets, ids, name, mem, o. repeat split; try reflexivity; congruence.
Qed.

(** The [try] block of the node loop neither logs nor sleeps, and calls
    the sink at most once. *)
Lemma node_body_quiet cb w i :
  count is_log (snd (node_body cb w i)) = 0 /\
  count is_sleep (snd (node_body cb w i)) = 0.
Proof.
  unfold node_body. py_unfold.
  pose proof (get_metrics_async_trace w i) as Ht.
  destruct (get_metrics_async w i) as [[[m|]|e] t]; cbn in Ht |- *; subst t;
    try (split; reflexivity).
  destruct (get_network_interfaces w i); cbn; try (split; reflexivity).
  destruct (get_model_and_chip w i); cbn; try (split; reflexivity).
  destruct (get_friendly_name w i); cbn; try (split; reflexivity).
  destruct (get_memory_profile_trace w i) as [Hm | [o Hm]];
    destruct (get_memory_profile w i) as [[mem|e] tm]; cbn in Hm |- *; subst tm;
    try (split; reflexivity);
    destruct (cb i _); cbn; split; reflexivity.
Qed.

(** *** Timeouts in the node loop *)

(** C1, the claim as stated, fails: on a host whose awaited steps take
    31 seconds, more than the 30 seconds named in the log message, no
    timeout is raised inside the tick; the tick completes, hands its
    profile to the sink and logs nothing. *)
Lemma slow_tick_is_not_timed_out :
  (30 < await_seconds slow_linux 0)%Q /\
  fst (node_body quiet_sink slow_linux 0) = Done Continue /\
  count is_sink (snd (node_tick quiet_sink slow_linux 0)) = 1 /\
  count is_log (snd (node_tick quiet_sink slow_linux 0)) = 0.
Proof. vm_compute. repeat split; reflexivity. Qed.

(** C1 (amended): whenever an [asyncio.TimeoutError] is raised inside
    the [try] block of a tick that the node loop has reached, the loop
    logs the warning, sleeps the poll interval and is running again,
    about to start the next tick; the timeout does not leave the
    loop. *)
Theorem timeout_logged_and_skipped
    (cb : nat -> NodePerformanceProfile -> completion unit)
    (w : World) (i : nat) (t : list event) :
  start_polling_node_metrics cb w i = (Running i, t) ->
  fst (node_body cb w i) = Raise TimeoutError ->
  start_polling_node_metrics cb w (S i) =
  (Running (S i),
   t ++ snd (node_body cb w i) ++
   [EvLogWarning timeout_warning; EvSleep node_poll_interval_s]).
Proof.
  unfold start_polling_node_metrics. intros Hrun Hraise.
  rewrite (while_true_step _ i 0 t Hrun). cbn [Nat.add].
  rewrite node_tick_eq.
  destruct (node_body cb w i) as [c tb]. cbn in Hraise |- *. subst c. reflexivity.
Qed.

Lemma timeout_logged_and_skipped_witness :
  start_polling_node_metrics quiet_sink (mac timing_out) 3 =
  (Running 3,
   snd (start_polling_node_metrics quiet_sink (mac timing_out) 2) ++
   snd (node_body quiet_sink (mac timing_out) 2) ++
   [EvLogWarning timeout_warning; EvSleep node_poll_interval_s]).
Proof.
  apply (timeout_logged_and_skipped quiet_sink (mac timing_out) 2).
  - vm_compute. reflexivity.
  - vm_compute. reflexivity.
Defined.

(** *** Which failures stay inside a loop *)

(** C2, the claim as stated, fails: a failure of a class the loop has no
    [except] clause for leaves the loop.  In the memory loop an override
    that is not a number makes [int] raise [ValueError] on the first
    tick; in the node loop a sink that raises [KeyError] does the
    same. *)
Lemma unhandled_failure_leaves_loop :
  fst (try_block (MemoryLoop quiet_sink (1 # 2)) misconfigured_linux 0) =
    Raise ValueError /\
  fst (run (MemoryLoop quiet_sink (1 # 2)) misconfigured_linux 1) =
    Crashed ValueError /\
  fst (try_block (NodeLoop broken_sink) slow_linux 0) =
    Raise (OtherError "KeyError") /\
  fst (run (NodeLoop broken_sink) slow_linux 1) =
    Crashed (OtherError "KeyError").
Proof. vm_compute. repeat split; reflexivity. Qed.

(** C2 (amended): a failure raised in the [try] block of a tick that
    either loop has reached stays inside the loop exactly when the loop
    has an [except] clause for its class ([MacMonError] in both loops,
    [asyncio.TimeoutError] in the node loop as well): it is then logged
    once and the loop is running again after the sleep.  A failure of
    any other class is not logged and leaves the loop, also after the
    sleep. *)
Theorem handled_failures_stay_in_loop
    (l : polling_loop) (w : World) (i : nat) (t : list event) (e : exn) :
  run l w i = (Running i, t) ->
  fst (try_block l w i) = Raise e ->
  exists t',
    run l w (S i) =
      (if handles l e then Running (S i) else Crashed e, t ++ t') /\
    count is_log t' = (if handles l e then 1 else 0) /\
    count is_sleep t' = 1.
Proof.
  destruct l as [cb iv | cb]; cbn [run try_block handles];
    [unfold start_polling_memory_metrics | unfold start_polling_node_metrics];
    intros Hrun Hraise; rewrite (while_true_step _ i 0 t Hrun); cbn [Nat.add].
  - rewrite memory_tick_eq. destruct (memory_body_quiet cb w i) as [Hl Hs].
    destruct (memory_body cb w i) as [c tb]. cbn [fst snd] in Hraise, Hl, Hs |- *.
    subst c.
    destruct e; cbn [memory_handles node_handles]; eexists;
      (split; [reflexivity|]); rewrite !count_app, ?Hl, ?Hs; split; reflexivity.
  - rewrite node_tick_eq. destruct (node_body_quiet cb w i) as [Hl Hs].
    destruct (node_body cb w i) as [c tb]. cbn [fst snd] in Hraise, Hl, Hs |- *.
    subst c.
    destruct e; cbn [memory_handles node_handles]; eexists;
      (split; [reflexivity|]); rewrite !count_app, ?Hl, ?Hs; split; reflexivity.
Qed.

Lemma handled_failures_stay_in_loop_witness :
  exists t',
    run (MemoryLoop faulty_sink (1 # 2)) slow_linux 3 =
      (if handles (MemoryLoop faulty_sink (1 # 2)) MacMonError
       then Running 3 else Crashed MacMonError,
       snd (run (MemoryLoop faulty_sink (1 # 2)) slow_linux 2) ++ t') /\
    count is_log t' =
      (if handles (MemoryLoop faulty_sink (1 # 2)) MacMonError then 1 else 0) /\
    count is_sleep t' = 1.
Proof.
  apply (handled_failures_stay_in_loop
           (MemoryLoop faulty_sink (1 # 2)) slow_linux 2).
  - vm_compute. reflexivity.
  - vm_compute. reflexivity.
Defined.

(** *** The absent exit of the node loop *)

Lemma node_tick_absent cb w k :
  fst (get_metrics_async w k) = Done None ->
  node_tick cb w k = (Done Return, [EvGetMetrics; EvSleep node_poll_interval_s]).
Proof. intros Hm. rewrite node_tick_eq, (node_body_absent cb w k Hm). reflexivity. Qed.

Lemma node_loop_absent_exit cb w k t fuel :
  start_polling_node_metrics cb w k = (Running k, t) ->
  fst (get_metrics_async w k) = Done None ->
  k < fuel ->
  start_polling_node_metrics cb w fuel =
  (Stopped, t ++ [EvGetMetrics; EvSleep node_poll_interval_s]).
Proof.
  unfold start_polling_node_metrics. intros Hrun Hm Hlt.
  replace fuel with (S k + (fuel - S k)) by lia.
  apply while_true_final; [|discriminate].
  rewrite (while_true_step _ k 0 t Hrun). cbn [Nat.add].
  rewrite (node_tick_absent cb w k Hm). reflexivity.
Qed.

(** A tick whose steps before the sink call complete calls the sink
    once and, when the sink is tolerated, falls through. *)
Lemma node_tick_reaches_sink cb w i :
  reaches_sink w i -> sink_tolerated cb i ->
  fst (node_tick cb w i) = Done Continue /\
  count is_sink (snd (node_tick cb w i)) = 1.
Proof.
  intros ([m Hm] & [nets Hn] & [ids Hi] & [name Hf] & [mem Hp]) Hsink.
  destruct (get_memory_profile_done w i mem Hp) as [o Ho].
  rewrite node_tick_eq, (node_body_reaches_sink cb w i m nets ids name mem o Hm Hn Hi Hf Ho).
  destruct (Hsink (node_profile m nets ids name mem)) as [-> | (e & -> & He)].
  - split; reflexivity.
  - destruct e; try discriminate; split; reflexivity.
Qed.

Lemma node_loop_clean_ticks cb w k :
  (forall i, i < k -> reaches_sink w i /\ sink_tolerated cb i) ->
  exists t,
    start_polling_node_metrics cb w k = (Running k, t) /\ count is_sink t = k.
Proof.
  unfold start_polling_node_metrics.
  induction k as [|k IH]; intros Hall.
  - exists []. split; reflexivity.
  - destruct IH as (t & Hrun & Hcount); [intros i Hi; apply Hall; lia|].
    destruct (Hall k (Nat.lt_succ_diag_r k)) as [Hreach Hsink].
    destruct (node_tick_reaches_sink cb w k Hreach Hsink) as [Hc H1].
    rewrite (while_true_step _ k 0 t Hrun). cbn [Nat.add].
    destruct (node_tick cb w k) as [c tk]. cbn [fst snd] in Hc, H1. subst c.
    eexists. split; [reflexivity|]. rewrite count_app, Hcount, H1. lia.
Qed.

(** C4, the claim as stated, fails: a Mac whose metrics source raises
    [MacMonError] on the first iteration and is absent for the first
    time on the second (K = 2).  The loop stops without an error, but
    the sink has been invoked 0 times, not K - 1 = 1 times. *)
Lemma absent_after_fault_sink_count :
  fst (get_metrics_async (mac fault_then_absent) 0) = Raise MacMonError /\
  fst (get_metrics_async (mac fault_then_absent) 1) = Done None /\
  fst (start_polling_node_metrics quiet_sink (mac fault_then_absent) 2) = Stopped /\
  count is_sink
    (snd (start_polling_node_metrics quiet_sink (mac fault_then_absent) 2)) = 0 /\
  count is_sink
    (snd (start_polling_node_metrics quiet_sink (mac fault_then_absent) 2)) <> 2 - 1.
Proof. vm_compute. repeat split; try reflexivity. discriminate. Qed.

(** C4 (amended): let the metrics source be absent on iteration K = k + 1
    (tick [k], counting from 0) and let, on each of the k earlier
    iterations, every step before the sink call complete and the sink
    return or raise a fault the loop handles.  Then after k iterations
    the sink has been invoked exactly k = K - 1 times, and with any
    larger number of iterations the loop has stopped: it returned, no
    exception left it, and the exit iteration added only the metrics
    query and the sleep to the trace (no log entry, no sink call). *)
Theorem absent_exit_after_clean_ticks
    (cb : nat -> NodePerformanceProfile -> completion unit)
    (w : World) (k fuel : nat) :
  (forall i, i < k -> reaches_sink w i /\ sink_tolerated cb i) ->
  fst (get_metrics_async w k) = Done None ->
  k < fuel ->
  exists t,
    start_polling_node_metrics cb w k = (Running k, t) /\
    count is_sink t = k /\
    start_polling_node_metrics cb w fuel =
      (Stopped, t ++ [EvGetMetrics; EvSleep node_poll_interval_s]) /\
    count is_sink (t ++ [EvGetMetrics; EvSleep node_poll_interval_s]) = k.
Proof.
  intros Hall Hm Hlt.
  destruct (node_loop_clean_ticks cb w k Hall) as (t & Hrun & Hcount).
  exists t. repeat split; try assumption.
  - apply (node_loop_absent_exit cb w k t fuel Hrun Hm Hlt).
  - rewrite count_app, Hcount. cbn. lia.
Qed.

Lemma absent_exit_after_clean_ticks_witness :
  exists t,
    start_polling_node_metrics quiet_sink (mac two_then_absent) 2 = (Running 2, t) /\
    count is_sink t = 2 /\
    start_polling_node_metrics quiet_sink (mac two_then_absent) 7 =
      (Stopped, t ++ [EvGetMetrics; EvSleep node_poll_interval_s]) /\
    count is_sink (t ++ [EvGetMetrics; EvSleep node_poll_interval_s]) = 2.
Proof.
  apply (absent_exit_after_clean_ticks quiet_sink (mac two_then_absent) 2 7).
  - intros i Hi.
    assert (i = 0 \/ i = 1) as [-> | ->] by lia;
      (split; [|intros p; left; reflexivity]);
      repeat split; eexists; vm_compute; reflexivity.
  - vm_compute. reflexivity.
  - lia.
Defined.

(** C10: when the metrics source is absent on the tick the node loop has
    reached, that tick is the metrics query followed by the sleep of one
    poll interval, and only then does the tick end by returning; so the
    loop stops with the sleep as the last action of its trace. *)
Theorem absent_exit_sleeps_before_return
    (cb : nat -> NodePerformanceProfile -> completion unit)
    (w : World) (k fuel : nat) (t : list event) :
  start_polling_node_metrics cb w k = (Running k, t) ->
  fst (get_metrics_async w k) = Done None ->
  k < fuel ->
  node_tick cb w k = (Done Return, [EvGetMetrics; EvSleep node_poll_interval_s]) /\
  start_polling_node_metrics cb w fuel =
    (Stopped, (t ++ [EvGetMetrics]) ++ [EvSleep node_poll_interval_s]).
Proof.
  intros Hrun Hm Hlt. split.
  - apply node_tick_absent, Hm.
  - rewrite (node_loop_absent_exit cb w k t fuel Hrun Hm Hlt), <- app_assoc.
    reflexivity.
Qed.

Lemma absent_exit_sleeps_before_return_witness :
  node_tick quiet_sink (mac two_then_absent) 2 =
    (Done Return, [EvGetMetrics; EvSleep node_poll_interval_s]) /\
  start_polling_node_metrics quiet_sink (mac two_then_absent) 3 =
    (Stopped,
     (snd (start_polling_node_metrics quiet_sink (mac two_then_absent) 2) ++
      [EvGetMetrics]) ++ [EvSleep node_poll_interval_s]).
Proof.
  apply (absent_exit_sleeps_before_return quiet_sink (mac two_then_absent) 2 3).
  - vm_compute. reflexivity.
  - vm_compute. reflexivity.
  - lia.
Defined.

(** *** Order of the steps of a node tick *)

(** C9: in a node tick whose [try] block completes, the actions are, in
    this order: the metrics sample, the network-interface fetch, the
    model-and-chip lookup, the friendly-name lookup, then the memory
    profile (the environment read and the profile construction), then
    the sink call with the profile assembled from these five results,
    then the sleep. *)
Theorem memory_profile_taken_last
    (cb : nat -> NodePerformanceProfile -> completion unit)
    (w : World) (i : nat) :
  fst (node_body cb w i) = Done Continue ->
  exists m nets ids name mem o,
    fst (get_metrics_async w i) = Done (Some m) /\
    get_network_interfaces w i = Done nets /\
    get_model_and_chip w i = Done ids /\
    get_friendly_name w i = Done name /\
    get_memory_profile w i =
      (Done mem, [EvGetenv override_variable; EvFromPsutil o]) /\
    node_tick cb w i =
      (Done Continue,
       [EvGetMetrics; EvNetworkInterfaces; EvModelAndChip; EvFriendlyName;
        EvGetenv override_variable; EvFromPsutil o;
        EvCallbackNode (node_profile m nets ids name mem);
        EvSleep node_poll_interval_s]).
Proof.
  intros Hok.
  destruct (node_body_continue_inv cb w i Hok)
    as (m & nets & ids & name & mem & o & Hm & Hn & Hi & Hf & Hp & Hcb).
  exists m, nets, ids, name, mem, o. repeat split; try assumption.
  rewrite node_tick_eq,
    (node_body_reaches_sink cb w i m nets ids name mem o Hm Hn Hi Hf Hp), Hcb.
  reflexivity.
Qed.

Lemma memory_profile_taken_last_witness :
  exists m nets ids name mem o,
    fst (get_metrics_async slow_linux 0) = Done (Some m) /\
    get_network_interfaces slow_linux 0 = Done nets /\
    get_model_and_chip slow_linux 0 = Done ids /\
    get_friendly_name slow_linux 0 = Done name /\
    get_memory_profile slow_linux 0 =
      (Done mem, [EvGetenv override_variable; EvFromPsutil o]) /\
    node_tick quiet_sink slow_linux 0 =
      (Done Continue,
       [EvGetMetrics; EvNetworkInterfaces; EvModelAndChip; EvFriendlyName;
        EvGetenv override_variable; EvFromPsutil o;
        EvCallbackNode (node_profile m nets ids name mem);
        EvSleep node_poll_interval_s]).
Proof.
  apply (memory_profile_taken_last quiet_sink slow_linux 0).
  vm_compute. reflexivity.
Defined.

(** *** The generic sampler *)






(** With a [sum] that adds from the left the readings 40, 50 and 60
    average to 50.0, and 40, 50 and 61 to the double next to 151/3. *)
Example two_groups_average :
  (temp <$> (match _collect_generic_metrics cpython two_groups with
             | Done m => Some m | Raise _ => None end)) =
  Some {| cpu_temp_avg := 50; gpu_temp_avg := 50 |}.
Proof. vm_compute. reflexivity. Qed.

Example left_fold_mean_rounds :
  left_fold_mean [40%float; 50%float; 61%float] = 0x1.92aaaaaaaaaabp+5%float.
Proof. vm_compute. reflexivity. Qed.

(** *** The memory override *)

(** [int] on some strings: a file separator is not whitespace for an
    ASCII string, and more digits than the limit are refused. *)
Example int_examples :
  int cpython "4096" = Done 4096%Z /\
  int cpython " -12_000 " = Done (-12000)%Z /\
  int cpython "" = Raise ValueError /\
  int cpython "4GB" = Raise ValueError /\
  int cpython (String (ascii_of_nat 28) "4096") = Raise ValueError /\
  int cpython (String.append "4096" (String (ascii_of_nat 31) "")) = Raise ValueError /\
  int cpython (string_of_list_ascii (repeat "1"%char 4301)) = Raise ValueError /\
  int cpython (string_of_list_ascii (repeat "0"%char 4300)) = Done 0%Z.
Proof. vm_compute. repeat split; reflexivity. Qed.

Lemma int_done_truthy py s n : int py s = Done n -> truthy s = true.
Proof. destruct s; [vm_compute; discriminate | reflexivity]. Qed.

(** With the override variable set to a string that [int] converts,
    [get_memory_profile] reads the environment and builds the profile
    from the override. *)
Lemma get_memory_profile_override w i s n :
  environ w i !! override_variable = Some s ->
  int (python w) s = Done n ->
  get_memory_profile w i =
  (match virtual_memory_total (psutil w i) with
   | Done _ => Done {| memory_total := mb_in_bytes w n |}
   | Raise e => Raise e
   end,
   [EvGetenv override_variable; EvFromPsutil (Some (mb_in_bytes w n))]).
Proof.
  intros Henv Hint. unfold get_memory_profile, from_psutil. py_unfold.
  rewrite Henv, (int_done_truthy _ s n Hint), Hint. cbn.
  destruct (virtual_memory_total (psutil w i)); reflexivity.
Qed.

(** C8: the override is read from the environment of the tick at which
    a profile is built.  If at tick [i] the variable is set to a string
    that [int] converts to [n] (megabytes), then [get_memory_profile]
    reads the variable and passes that many megabytes, in bytes, to the
    profile constructor; every profile it returns, and so every profile
    that either loop hands to its sink on that tick, reports exactly
    this total, whatever total the host reports. *)
Theorem override_replaces_detected_total (w : World) (i : nat) (s : string) (n : Z) :
  environ w i !! override_variable = Some s ->
  int (python w) s = Done n ->
  snd (get_memory_profile w i) =
    [EvGetenv override_variable; EvFromPsutil (Some (mb_in_bytes w n))] /\
  (forall mem, fst (get_memory_profile w i) = Done mem ->
               memory_total mem = mb_in_bytes w n) /\
  (forall cb iv p, In (EvCallbackMemory p) (snd (memory_tick cb iv w i)) ->
                   memory_total p = mb_in_bytes w n) /\
  (forall cb p, In (EvCallbackNode p) (snd (node_tick cb w i)) ->
                memory_total (memory p) = mb_in_bytes w n).
Proof.
  intros Henv Hint.
  pose proof (get_memory_profile_override w i s n Henv Hint) as Hp.
  split; [rewrite Hp; reflexivity|]. split; [|split].
  - intros mem. rewrite Hp. cbn.
    destruct (virtual_memory_total (psutil w i)); [|discriminate].
    intros [= <-]. reflexivity.
  - intros cb iv p. rewrite memory_tick_eq, memory_body_eq, Hp.
    destruct (virtual_memory_total (psutil w i)) as [d|e].
    + destruct (cb i _) as [[]|e]; [|destruct e]; cbn;
        intros Hin; repeat (destruct Hin as [Hin|Hin]; try discriminate);
        try contradiction; injection Hin as <-; reflexivity.
    + destruct e; cbn; intros Hin;
        repeat (destruct Hin as [Hin|Hin]; try discriminate); contradiction.
  - intros cb p. rewrite node_tick_eq. unfold node_body. py_unfold.
    pose proof (get_metrics_async_trace w i) as Ht.
    destruct (get_metrics_async w i) as [[[m|]|e] t]; cbn [snd] in Ht; subst t.
    + destruct (get_network_interfaces w i) as [nets|e]; cbn.
      2:{ destruct e; cbn; intros Hin;
            repeat (destruct Hin as [Hin|Hin]; try discriminate); contradiction. }
      destruct (get_model_and_chip w i) as [ids|e]; cbn.
      2:{ destruct e; cbn; intros Hin;
            repeat (destruct Hin as [Hin|Hin]; try discriminate); contradiction. }
      destruct (get_friendly_name w i) as [name|e]; cbn.
      2:{ destruct e; cbn; intros Hin;
            repeat (destruct Hin as [Hin|Hin]; try discriminate); contradiction. }
      rewrite Hp.
      destruct (virtual_memory_total (psutil w i)) as [d|e]; cbn.
      2:{ destruct e; cbn; intros Hin;
            repeat (destruct Hin as [Hin|Hin]; try discriminate); contradiction. }
      destruct (cb i _) as [[]|e]; [|destruct e]; cbn;
        intros Hin; repeat (destruct Hin as [Hin|Hin]; try discriminate);
        try contradiction; injection Hin as <-; reflexivity.
    + cbn. intros Hin.
      repeat (destruct Hin as [Hin|Hin]; try discriminate); contradiction.
    + destruct e; cbn; intros Hin;
        repeat (destruct Hin as [Hin|Hin]; try discriminate); contradiction.
Qed.

Lemma override_replaces_detected_total_witness :
  snd (get_memory_profile overridden_linux 0) =
    [EvGetenv override_variable;
     EvFromPsutil (Some (mb_in_bytes overridden_linux 4096))] /\
  (forall mem, fst (get_memory_profile overridden_linux 0) = Done mem ->
               memory_total mem = mb_in_bytes overridden_linux 4096) /\
  (forall cb iv p,
     In (EvCallbackMemory p) (snd (memory_tick cb iv overridden_linux 0)) ->
     memory_total p = mb_in_bytes overridden_linux 4096) /\
  (forall cb p, In (EvCallbackNode p) (snd (node_tick cb overridden_linux 0)) ->
                memory_total (memory p) = mb_in_bytes overridden_linux 4096).
Proof.
  apply (override_replaces_detected_total overridden_linux 0 "4096" 4096).
  - vm_compute. reflexivity.
  - vm_compute. reflexivity.
Defined.

(** On the host of the scenario the detected total is 16 GiB; with the
    override at 4096 the memory loop reports 4096 * 1048576 bytes. *)
Example overridden_memory_tick :
  memory_tick quiet_sink (1 # 2) overridden_linux 0 =
  (Done Continue,
   [EvGetenv override_variable; EvFromPsutil (Some 4294967296%Z);
    EvCallbackMemory {| memory_total := 4294967296 |}; EvSleep (1 # 2)]).
Proof. vm_compute. reflexivity. Qed.

(** An override that appears while the loop runs is used from the next
    tick on. *)
Example late_override_memory_loop :
  start_polling_memory_metrics quiet_sink (1 # 2) late_override 2 =
  (Running 2,
   [EvGetenv override_variable; EvFromPsutil None;
    EvCallbackMemory {| memory_total := 17179869184 |}; EvSleep (1 # 2);
    EvGetenv override_variable; EvFromPsutil (Some 4294967296%Z);
    EvCallbackMemory {| memory_total := 4294967296 |}; EvSleep (1 # 2)]).
Proof. vm_compute. reflexivity. Qed.

End ProfileFacts.

(** ** Further properties of availability.py *)
Module AvailabilityMore.
Import Availability Scenarios Notions AvailabilityFacts.

(** *** What one resolution attempt does to the process *)

Ltac split_matches :=
  repeat match goal with
         | |- context [match ?x with _ => _ end] => destruct x eqn:?
         end.

(** Whatever the host, [_build_backend] leaves the cache alone, only
    appends to the log, and logs no warning itself; it allocates one
    object exactly when it succeeds, and then the handle carries the
    attributes of the two modules. *)
Lemma build_inv h p r p1 :
  _build_backend h p = (r, p1) ->
  cached p1 = cached p /\
  exists l,
    log p1 = log p ++ l /\ warnings l = 0 /\
    head l = Some EvPlatformSystem /\
    match r with
    | Done b =>
        next_id p1 = S (next_id p) /\ self_id b = next_id p /\
        lower (platform_system h) = "darwin" /\
        l = [EvPlatformSystem; EvImportModule generate_module;
             EvImportModule utils_mlx_module] /\
        exists g u,
          import_module h generate_module = Done g /\
          import_module h utils_mlx_module = Done u /\
          u !! "initialize_mlx" = Some (initialize_mlx b) /\
          u !! "mlx_force_oom" = Some (mlx_force_oom b) /\
          g !! "mlx_generate" = Some (mlx_generate b) /\
          g !! "warmup_inference" = Some (warmup_inference b)
    | Raise e => next_id p1 = next_id p
    end.
Proof.
  unfold _build_backend, import_helpers, make_namespace, getattr, record.
  destruct (String.eqb (lower (platform_system h)) "darwin") eqn:Hd; cbn.
  - apply String.eqb_eq in Hd.
    destruct (import_module h generate_module) as [g|e] eqn:Hg.
    + destruct (import_module h utils_mlx_module) as [u|e] eqn:Hu.
      * cbn.
        destruct (u !! "initialize_mlx") as [f1|] eqn:H1;
          destruct (u !! "mlx_force_oom") as [f2|] eqn:H2;
          destruct (g !! "mlx_generate") as [f3|] eqn:H3;
          destruct (g !! "warmup_inference") as [f4|] eqn:H4;
          intros [= <- <-]; cbn; (split; [reflexivity|]);
          eexists; (split; [rewrite <- ?app_assoc; reflexivity|]);
          repeat split; try reflexivity; try assumption.
        exists g, u. repeat split; assumption.
      * destruct e; intros [= <- <-]; cbn; (split; [reflexivity|]);
          eexists; (split; [rewrite <- ?app_assoc; reflexivity|]);
          repeat split; reflexivity.
    + destruct e; intros [= <- <-]; cbn; (split; [reflexivity|]);
        eexists; (split; [rewrite <- ?app_assoc; reflexivity|]);
        repeat split; reflexivity.
  - intros [= <- <-]. cbn. split; [reflexivity|].
    eexists. split; [rewrite <- ?app_assoc; reflexivity|].
    repeat split; reflexivity.
Qed.

(** One call, by the state of the cache. *)
Lemma load_inv h p r p1 :
  load_mlx_backend h p = (r, p1) ->
  match cached p with
  | Some b0 => r = Done b0 /\ p1 = p
  | None =>
      exists rb pb,
        _build_backend h p = (rb, pb) /\
        match rb with
        | Done b =>
            r = Done b /\
            p1 = {| cached := Some b; next_id := next_id pb; log := log pb |}
        | Raise e =>
            r = Raise e /\
            p1 = if is_MlxUnavailableError e
                 then record (EvLogWarning unavailable_warning) pb else pb
        end
  end.
Proof.
  unfold load_mlx_backend. destruct (cached p) as [b0|] eqn:Hc.
  - rewrite Hc. intros [= <- <-]. split; reflexivity.
  - destruct (_build_backend h p) as [[b|e] pb] eqn:Hb.
    + cbn. intros [= <- <-]. exists (Done b), pb. repeat split; reflexivity.
    + intros Hr. exists (Raise e), pb. split; [reflexivity|].
      destruct (is_MlxUnavailableError e); injection Hr as <- <-;
        split; reflexivity.
Qed.

Lemma warnings_app l1 l2 : warnings (l1 ++ l2) = warnings l1 + warnings l2.
Proof. unfold warnings. rewrite List.filter_app, length_app. reflexivity. Qed.

(** X1: a call that raises, whatever it raises, found no cached handle
    and leaves none; it allocates nothing, and it adds a warning to the
    log exactly when the exception is an [MlxUnavailableError]. *)
Theorem failed_call_leaves_no_cache (h : Host) (p p1 : Process) (e : exn) :
  load_mlx_backend h p = (Raise e, p1) ->
  cached p = None /\ cached p1 = None /\ next_id p1 = next_id p /\
  exists l,
    log p1 = log p ++ l /\
    warnings l = if is_MlxUnavailableError e then 1 else 0.
Proof.
  intros Hload. apply load_inv in Hload.
  destruct (cached p) as [b0|] eqn:Hc; [destruct Hload; discriminate|].
  destruct Hload as (rb & pb & Hb & Hr).
  destruct (build_inv h p rb pb Hb) as (Hcache & l & Hlog & Hw & _ & Hrest).
  destruct rb as [b|e']; [destruct Hr; discriminate|].
  destruct Hr as [[= <-] ->]. split; [reflexivity|].
  destruct (is_MlxUnavailableError e).
  - cbn. rewrite Hcache, Hc. repeat split; [exact Hrest|].
    exists (l ++ [EvLogWarning unavailable_warning]).
    rewrite Hlog, app_assoc, warnings_app, Hw. split; reflexivity.
  - rewrite Hcache, Hc. repeat split; [exact Hrest|].
    exists l. split; assumption.
Qed.

Lemma failed_call_leaves_no_cache_witness :
  cached fresh_process = None /\
  cached (snd (load_mlx_backend mac_broken_generator fresh_process)) = None /\
  next_id (snd (load_mlx_backend mac_broken_generator fresh_process)) =
    next_id fresh_process /\
  exists l,
    log (snd (load_mlx_backend mac_broken_generator fresh_process)) =
      log fresh_process ++ l /\
    warnings l =
      if is_MlxUnavailableError (OtherError "RuntimeError") then 1 else 0.
Proof.
  apply (failed_call_leaves_no_cache mac_broken_generator fresh_process _
           (OtherError "RuntimeError")).
  vm_compute. reflexivity.
Defined.

(** X2: a call that returns a handle without finding one cached ran on
    darwin with both modules imported; the four entry points of the
    handle are the attributes of the same names, [initialize_mlx] and
    [mlx_force_oom] of the utils module, [mlx_generate] and
    [warmup_inference] of the generator module; the handle is a newly
    allocated object and is the one left in the cache; the call logged
    the platform query and the two imports and no warning. *)
Theorem first_success_resolves_entry_points (h : Host) (p p1 : Process) (b : Backend) :
  cached p = None ->
  load_mlx_backend h p = (Done b, p1) ->
  lower (platform_system h) = "darwin" /\
  (exists g u,
     import_module h generate_module = Done g /\
     import_module h utils_mlx_module = Done u /\
     u !! "initialize_mlx" = Some (initialize_mlx b) /\
     u !! "mlx_force_oom" = Some (mlx_force_oom b) /\
     g !! "mlx_generate" = Some (mlx_generate b) /\
     g !! "warmup_inference" = Some (warmup_inference b)) /\
  self_id b = next_id p /\
  p1 = {| cached := Some b; next_id := S (next_id p);
          log := log p ++ [EvPlatformSystem; EvImportModule generate_module;
                           EvImportModule utils_mlx_module] |}.
Proof.
  intros Hc Hload. apply load_inv in Hload. rewrite Hc in Hload.
  destruct Hload as (rb & pb & Hb & Hr).
  destruct (build_inv h p rb pb Hb) as (_ & l & Hlog & _ & _ & Hrest).
  destruct rb as [b'|e]; [|destruct Hr; discriminate].
  destruct Hr as [[= <-] ->].
  destruct Hrest as (Hid & Hself & Hd & -> & Hattrs).
  repeat split; try assumption. rewrite Hid, Hlog. reflexivity.
Qed.

Lemma first_success_resolves_entry_points_witness :
  lower (platform_system mac_with_mlx) = "darwin" /\
  (exists g u,
     import_module mac_with_mlx generate_module = Done g /\
     import_module mac_with_mlx utils_mlx_module = Done u /\
     u !! "initialize_mlx" = Some (initialize_mlx (mkBackend 0 21 22 11 12)) /\
     u !! "mlx_force_oom" = Some (mlx_force_oom (mkBackend 0 21 22 11 12)) /\
     g !! "mlx_generate" = Some (mlx_generate (mkBackend 0 21 22 11 12)) /\
     g !! "warmup_inference" = Some (warmup_inference (mkBackend 0 21 22 11 12))) /\
  self_id (mkBackend 0 21 22 11 12) = next_id fresh_process /\
  snd (load_mlx_backend mac_with_mlx fresh_process) =
    {| cached := Some (mkBackend 0 21 22 11 12); next_id := S (next_id fresh_process);
       log := log fresh_process ++
              [EvPlatformSystem; EvImportModule generate_module;
               EvImportModule utils_mlx_module] |}.
Proof.
  apply (first_success_resolves_entry_points mac_with_mlx fresh_process).
  - reflexivity.
  - vm_compute. reflexivity.
Defined.

(** *** Sequences of calls *)

(** The cache over a sequence of calls: with a handle cached at the
    start nothing changes; otherwise either every call raised and
    nothing was allocated, or one object was allocated and every call
    that returned, returned it. *)
Lemma load_calls_inv hs : forall p,
  match cached p with
  | Some b0 =>
      snd (load_calls hs p) = p /\
      Forall (fun r => r = Done b0) (fst (load_calls hs p))
  | None =>
      (cached (snd (load_calls hs p)) = None /\
       next_id (snd (load_calls hs p)) = next_id p /\
       Forall is_raise (fst (load_calls hs p))) \/
      (exists b,
         cached (snd (load_calls hs p)) = Some b /\
         next_id (snd (load_calls hs p)) = S (next_id p) /\
         Forall (fun r => is_raise r \/ r = Done b) (fst (load_calls hs p)))
  end.
Proof.
  induction hs as [|h hs IH]; intros p.
  - cbn. destruct (cached p) eqn:Hc; [split; [reflexivity|constructor]|].
    left. split; [reflexivity|]. split; [reflexivity|constructor].
  - cbn [load_calls]. destruct (load_mlx_backend h p) as [r p1] eqn:Hload.
    pose proof (load_inv h p r p1 Hload) as Hinv. specialize (IH p1).
    destruct (load_calls hs p1) as [rs p2]. cbn [fst snd] in *.
    destruct (cached p) as [b0|] eqn:Hc.
    + destruct Hinv as [-> ->]. rewrite Hc in IH. destruct IH as [-> Hall].
      split; [reflexivity|]. constructor; [reflexivity|exact Hall].
    + destruct Hinv as (rb & pb & Hb & Hr).
      destruct (build_inv h p rb pb Hb) as (Hcache & l & _ & _ & _ & Hrest).
      destruct rb as [b|e].
      * destruct Hr as [-> ->]. cbn [cached] in IH. destruct IH as [-> Hall].
        right. exists b. destruct Hrest as (Hid & _). cbn. repeat split; [exact Hid|].
        constructor; [right; reflexivity|].
        eapply Forall_impl; [exact Hall|]. intros r' ->. right. reflexivity.
      * destruct Hr as [-> Hp1].
        assert (cached p1 = None /\ next_id p1 = next_id p) as [Hc1 Hn1].
        { subst p1. destruct (is_MlxUnavailableError e); cbn;
            rewrite Hcache, Hc, Hrest; split; reflexivity. }
        rewrite Hc1 in IH. destruct IH as [(Hc2 & Hn2 & Hall) | (b & Hc2 & Hn2 & Hall)].
        -- left. repeat split; [exact Hc2|congruence|].
           constructor; [exact I|exact Hall].
        -- right. exists b. repeat split; [exact Hc2|congruence|].
           constructor; [left; exact I|exact Hall].
Qed.

(** X3: over any sequence of calls, from any state of the process, at
    most one handle object is allocated, every call that returns a
    handle returns the same one, and that handle is the one in the cache
    at the end. *)
Theorem one_handle_per_process (hs : list Host) (p : Process) :
  next_id (snd (load_calls hs p)) <= S (next_id p) /\
  (forall b1 b2,
     In (Done b1) (fst (load_calls hs p)) ->
     In (Done b2) (fst (load_calls hs p)) -> b1 = b2) /\
  (forall b,
     In (Done b) (fst (load_calls hs p)) ->
     cached (snd (load_calls hs p)) = Some b).
Proof.
  pose proof (load_calls_inv hs p) as Hinv.
  destruct (cached p) as [b0|] eqn:Hc.
  - destruct Hinv as [-> Hall]. rewrite List.Forall_forall in Hall.
    split; [lia|]. split.
    + intros b1 b2 H1 H2. apply Hall in H1, H2. congruence.
    + intros b H. apply Hall in H. congruence.
  - destruct Hinv as [(Hc2 & Hn2 & Hall) | (b & Hc2 & Hn2 & Hall)];
      rewrite List.Forall_forall in Hall.
    + split; [lia|]. split.
      * intros b1 b2 H1 _. destruct (Hall _ H1).
      * intros b H. destruct (Hall _ H).
    + split; [lia|]. split.
      * intros b1 b2 H1 H2.
        destruct (Hall _ H1) as [[]|[= ->]]. destruct (Hall _ H2) as [[]|[= ->]].
        reflexivity.
      * intros b' H. destruct (Hall _ H) as [[]|[= ->]]. exact Hc2.
Qed.

Lemma one_handle_per_process_witness :
  next_id (snd (load_calls [linux_host; mac_with_mlx; mac_without_mlx; mac_with_mlx]
                  fresh_process)) <= S (next_id fresh_process) /\
  (forall b1 b2,
     In (Done b1) (fst (load_calls [linux_host; mac_with_mlx; mac_without_mlx; mac_with_mlx]
                          fresh_process)) ->
     In (Done b2) (fst (load_calls [linux_host; mac_with_mlx; mac_without_mlx; mac_with_mlx]
                          fresh_process)) -> b1 = b2) /\
  (forall b,
     In (Done b) (fst (load_calls [linux_host; mac_with_mlx; mac_without_mlx; mac_with_mlx]
                         fresh_process)) ->
     cached (snd (load_calls [linux_host; mac_with_mlx; mac_without_mlx; mac_with_mlx]
                    fresh_process)) = Some b).
Proof.
  exact (one_handle_per_process
           [linux_host; mac_with_mlx; mac_without_mlx; mac_with_mlx] fresh_process).
Defined.

(** On a host that can provide the backend a call without a cached
    handle succeeds. *)
Lemma load_on_available h p :
  cached p = None -> available h ->
  exists b,
    load_mlx_backend h p =
      (Done b,
       {| cached := Some b; next_id := S (next_id p);
          log := log p ++ [EvPlatformSystem; EvImportModule generate_module;
                           EvImportModule utils_mlx_module] |}) /\
    self_id b = next_id p.
Proof.
  intros Hc (Hd & g & u & f1 & f2 & f3 & f4 & Hg & Hu & H1 & H2 & H3 & H4).
  exists (mkBackend (next_id p) f1 f2 f3 f4). split; [|reflexivity].
  unfold load_mlx_backend, _build_backend, import_helpers, make_namespace, getattr.
  rewrite Hc, Hd, Hg, Hu. cbn. rewrite H1, H2, H3, H4. cbn.
  rewrite <- !app_assoc. reflexivity.
Qed.

(** X4: failures are not sticky.  After any number of calls on hosts
    that cannot provide the backend, each of which raised, the first
    call on a host that can provide it returns a handle, which is then
    cached. *)
Theorem recovers_after_failures (hs : list Host) (h : Host) (p : Process) :
  cached p = None ->
  Forall unavailable hs ->
  available h ->
  exists b,
    fst (load_calls (hs ++ [h]) p) =
      map (fun h' => Raise (MlxUnavailableError (failure_message h'))) hs ++ [Done b] /\
    cached (snd (load_calls (hs ++ [h]) p)) = Some b.
Proof.
  intros Hc Hall Hav. revert p Hc.
  induction Hall as [|h' hs Hh' Hall IH]; intros p Hc.
  - destruct (load_on_available h p Hc Hav) as (b & Hload & _).
    exists b. cbn. rewrite Hload. split; reflexivity.
  - cbn [app load_calls]. rewrite (load_on_unavailable h' p Hc Hh').
    destruct (IH {| cached := None; next_id := next_id p;
                    log := log p ++ attempt_log h' ++ [EvLogWarning unavailable_warning] |}
                eq_refl) as (b & Hrs & Hcache).
    exists b.
    destruct (load_calls (hs ++ [h]) _) as [rs p2]. cbn [fst snd map app] in *.
    rewrite Hrs. split; [reflexivity|exact Hcache].
Qed.

Lemma recovers_after_failures_witness :
  exists b,
    fst (load_calls ([linux_host; mac_without_mlx] ++ [mac_with_mlx]) fresh_process) =
      map (fun h' => Raise (MlxUnavailableError (failure_message h')))
        [linux_host; mac_without_mlx] ++ [Done b] /\
    cached (snd (load_calls ([linux_host; mac_without_mlx] ++ [mac_with_mlx])
                   fresh_process)) = Some b.
Proof.
  apply (recovers_after_failures [linux_host; mac_without_mlx] mac_with_mlx fresh_process).
  - reflexivity.
  - constructor; [left; unfold platform_fails; vm_compute; discriminate|].
    constructor; [right; split; [reflexivity | left; reflexivity]|].
    constructor.
  - split; [reflexivity|].
    eexists _, _, _, _, _, _. repeat split; vm_compute; reflexivity.
Defined.

(** *** Failures that are not reported as unavailability *)

(** X5: on darwin with both modules imported, a missing entry point
    makes the call raise [AttributeError]: the lookup happens outside
    the [try] block that translates import failures.  Nothing is
    cached, nothing is allocated and no warning is logged; the log shows
    the platform query and both imports. *)
Theorem missing_entry_point_raises (h : Host) (p : Process) (g u : gmap string pyobj) :
  cached p = None ->
  lower (platform_system h) = "darwin" ->
  import_module h generate_module = Done g ->
  import_module h utils_mlx_module = Done u ->
  missing_entry_point g u ->
  load_mlx_backend h p =
  (Raise AttributeError,
   {| cached := None; next_id := next_id p;
      log := log p ++ [EvPlatformSystem; EvImportModule generate_module;
                       EvImportModule utils_mlx_module] |}).
Proof.
  intros Hc Hd Hg Hu Hmiss.
  unfold load_mlx_backend, _build_backend, import_helpers, make_namespace, getattr.
  rewrite Hc, Hd, Hg, Hu. cbn. rewrite Hc.
  destruct (u !! "initialize_mlx") as [f1|] eqn:H1;
    destruct (u !! "mlx_force_oom") as [f2|] eqn:H2;
    destruct (g !! "mlx_generate") as [f3|] eqn:H3;
    destruct (g !! "warmup_inference") as [f4|] eqn:H4;
    try (destruct Hmiss as [H|[H|[H|H]]]; congruence);
    unfold record; cbn; rewrite ?Hc, <- ?app_assoc; reflexivity.
Qed.

Lemma missing_entry_point_raises_witness :
  load_mlx_backend mac_missing_entry_point fresh_process =
  (Raise AttributeError,
   {| cached := None; next_id := next_id fresh_process;
      log := log fresh_process ++
             [EvPlatformSystem; EvImportModule generate_module;
              EvImportModule utils_mlx_module] |}).
Proof.
  apply (missing_entry_point_raises mac_missing_entry_point fresh_process
           (<["mlx_generate" := 11%nat]> (<["warmup_inference" := 12%nat]> ∅))
           (<["initialize_mlx" := 21%nat]> ∅)).
  - reflexivity.
  - reflexivity.
  - reflexivity.
  - reflexivity.
  - right. left. vm_compute. reflexivity.
Defined.

(** X6: when importing the generator module fails on darwin, the utils
    module is not imported at all.  An [ImportError] is reported as
    [MlxUnavailableError] with the missing-dependencies message; any
    other exception is raised as it is; a warning is logged only when
    what is raised is an [MlxUnavailableError]. *)
Theorem generator_failure_skips_utils (h : Host) (p : Process) (e : exn) :
  cached p = None ->
  lower (platform_system h) = "darwin" ->
  import_module h generate_module = Raise e ->
  load_mlx_backend h p =
  (Raise (match e with
          | ImportError => MlxUnavailableError dependencies_missing
          | _ => e
          end),
   {| cached := None; next_id := next_id p;
      log := log p ++
             [EvPlatformSystem; EvImportModule generate_module] ++
             match e with
             | ImportError | MlxUnavailableError _ => [EvLogWarning unavailable_warning]
             | _ => []
             end |}).
Proof.
  intros Hc Hd Hg.
  unfold load_mlx_backend, _build_backend, import_helpers.
  rewrite Hc, Hd, Hg. cbn.
  destruct e; unfold record; cbn; rewrite ?Hc, <- ?app_assoc, ?app_nil_r;
    reflexivity.
Qed.

Lemma generator_failure_skips_utils_witness :
  load_mlx_backend mac_broken_generator fresh_process =
  (Raise (OtherError "RuntimeError"),
   {| cached := None; next_id := next_id fresh_process;
      log := log fresh_process ++
             [EvPlatformSystem; EvImportModule generate_module] ++ [] |}).
Proof.
  apply (generator_failure_skips_utils mac_broken_generator fresh_process
           (OtherError "RuntimeError")); reflexivity.
Defined.

(** X7: off darwin the import system is never touched.  The call
    queries the platform twice (for the test and for the message),
    raises [MlxUnavailableError] with a message that quotes the
    platform name as the host spells it, and logs one warning. *)
Theorem no_import_off_darwin (h : Host) (p : Process) :
  cached p = None ->
  platform_fails h ->
  load_mlx_backend h p =
  (Raise (MlxUnavailableError
            ("MLX backend requires macOS; current platform is '"
             +:+ platform_system h +:+ "'.")),
   {| cached := None; next_id := next_id p;
      log := log p ++ [EvPlatformSystem; EvPlatformSystem;
                       EvLogWarning unavailable_warning] |}).
Proof.
  intros Hc Hp. unfold load_mlx_backend, _build_backend.
  assert (String.eqb (lower (platform_system h)) "darwin" = false) as ->
    by (apply String.eqb_neq; exact Hp).
  rewrite Hc. unfold record. cbn. rewrite Hc, <- !app_assoc. reflexivity.
Qed.

Lemma no_import_off_darwin_witness :
  load_mlx_backend linux_host fresh_process =
  (Raise (MlxUnavailableError
            ("MLX backend requires macOS; current platform is '"
             +:+ platform_system linux_host +:+ "'.")),
   {| cached := None; next_id := next_id fresh_process;
      log := log fresh_process ++ [EvPlatformSystem; EvPlatformSystem;
                                   EvLogWarning unavailable_warning] |}).
Proof.
  apply (no_import_off_darwin linux_host fresh_process).
  - reflexivity.
  - unfold platform_fails. vm_compute. discriminate.
Defined.

End AvailabilityMore.

(** ** Further properties of profile.py *)
Module ProfileMore.
Import Profile Scenarios Notions ProfileFacts.

#[local] Arguments get_memory_profile : simpl never.
#[local] Arguments get_metrics_async : simpl never.
#[local] Arguments node_profile : simpl never.
#[local] Arguments count : simpl never.
#[local] Arguments int : simpl never.

(** *** The loop combinator, inverted *)

(** What a run of [while True] has done when it is observed: it ran [n]
    ticks, all but possibly the last of which fell through; it is still
    running only if the fuel is spent, and it has stopped or crashed
    only through its last tick. *)
Lemma while_true_inv body fuel : forall i s t,
  while_true fuel body i = (s, t) ->
  exists n,
    n <= fuel /\
    t = concat (map (fun j => snd (body j)) (seq i n)) /\
    match s with
    | Running m =>
        n = fuel /\ m = i + fuel /\
        forall j, i <= j < i + n -> fst (body j) = Done Continue
    | Stopped =>
        exists k, n = S k /\ fst (body (i + k)) = Done Return /\
                  forall j, i <= j < i + k -> fst (body j) = Done Continue
    | Crashed e =>
        exists k, n = S k /\ fst (body (i + k)) = Raise e /\
                  forall j, i <= j < i + k -> fst (body j) = Done Continue
    end.
Proof.
  induction fuel as [|fuel IH]; intros i s t; cbn [while_true].
  - intros [= <- <-]. exists 0. repeat split; lia.
  - destruct (body i) as [[[|]|e] t0] eqn:Hb.
    + destruct (while_true fuel body (S i)) as [s' t'] eqn:Hrest.
      intros [= <- <-]. destruct (IH _ _ _ Hrest) as (n & Hn & Ht & Hs).
      exists (S n). split; [lia|]. split; [cbn; rewrite Hb, Ht; reflexivity|].
      assert (Hhere : forall j, j = i -> fst (body j) = Done Continue)
        by (intros j ->; rewrite Hb; reflexivity).
      destruct s' as [m| |e].
      * destruct Hs as (-> & -> & Hall). repeat split; try lia.
        intros j Hj. destruct (Nat.eq_dec j i) as [->|]; [auto|apply Hall; lia].
      * destruct Hs as (k & -> & Hlast & Hall). exists (S k).
        replace (i + S k) with (S i + k) by lia. repeat split; [exact Hlast|].
        intros j Hj. destruct (Nat.eq_dec j i) as [->|]; [auto|apply Hall; lia].
      * destruct Hs as (k & -> & Hlast & Hall). exists (S k).
        replace (i + S k) with (S i + k) by lia. repeat split; [exact Hlast|].
        intros j Hj. destruct (Nat.eq_dec j i) as [->|]; [auto|apply Hall; lia].
    + intros [= <- <-]. exists 1. split; [lia|].
      split; [cbn; rewrite Hb, app_nil_r; reflexivity|].
      exists 0. rewrite Nat.add_0_r, Hb. repeat split. intros j Hj. lia.
    + intros [= <- <-]. exists 1. split; [lia|].
      split; [cbn; rewrite Hb, app_nil_r; reflexivity|].
      exists 0. rewrite Nat.add_0_r, Hb. repeat split. intros j Hj. lia.
Qed.

Lemma while_true_all_continue body n :
  (forall i, i < n -> fst (body i) = Done Continue) ->
  fst (while_true n body 0) = Running n.
Proof.
  induction n as [|n IH]; intros Hall; [reflexivity|].
  destruct (while_true n body 0) as [s t] eqn:Hrun.
  cbn [fst] in IH. rewrite IH in Hrun by (intros i Hi; apply Hall; lia).
  rewrite (while_true_step body n 0 t Hrun). cbn [Nat.add].
  specialize (Hall n (Nat.lt_succ_diag_r n)).
  destruct (body n) as [c t0]. cbn [fst] in Hall. subst c. reflexivity.
Qed.

Lemma run_eq l w fuel : run l w fuel = while_true fuel (tick l w) 0.
Proof. destruct l; reflexivity. Qed.

(** *** The [try] blocks, case by case *)

Lemma get_memory_profile_no_sink w i :
  count is_sink (snd (get_memory_profile w i)) = 0.
Proof.
  destruct (get_memory_profile_trace w i) as [-> | [o ->]]; reflexivity.
Qed.

Lemma memory_body_sink cb w i : count is_sink (snd (memory_body cb w i)) <= 1.
Proof.
  rewrite memory_body_eq. pose proof (get_memory_profile_no_sink w i) as H0.
  destruct (get_memory_profile w i) as [[mem|e] t]; cbn [snd] in *.
  - rewrite count_app, H0. unfold count. cbn. reflexivity.
  - rewrite H0. lia.
Qed.

(** The [try] block of a node tick ends in one of four ways. *)
Lemma node_body_cases cb w i :
  (fst (get_metrics_async w i) = Done None /\
   node_body cb w i = (Done Return, [EvGetMetrics])) \/
  (exists e, fst (get_metrics_async w i) = Raise e /\
             node_body cb w i = (Raise e, [EvGetMetrics])) \/
  (exists m e t,
     fst (get_metrics_async w i) = Done (Some m) /\
     node_body cb w i = (Raise e, t) /\ count is_sink t = 0 /\
     (get_network_interfaces w i = Raise e \/
      get_model_and_chip w i = Raise e \/
      get_friendly_name w i = Raise e \/
      fst (get_memory_profile w i) = Raise e)) \/
  (exists m nets ids name mem o,
     fst (get_metrics_async w i) = Done (Some m) /\
     get_network_interfaces w i = Done nets /\
     get_model_and_chip w i = Done ids /\
     get_friendly_name w i = Done name /\
     get_memory_profile w i =
       (Done mem, [EvGetenv override_variable; EvFromPsutil o]) /\
     node_body cb w i =
       (match cb i (node_profile m nets ids name mem) with
        | Done _ => Done Continue
        | Raise e => Raise e
        end,
        [EvGetMetrics; EvNetworkInterfaces; EvModelAndChip; EvFriendlyName;
         EvGetenv override_variable; EvFromPsutil o;
         EvCallbackNode (node_profile m nets ids name mem)])).
Proof.
  pose proof (get_metrics_async_trace w i) as Ht.
  destruct (get_metrics_async w i) as [[[m|]|e] t] eqn:Hm; cbn [snd] in Ht; subst t.
  - right. right.
    destruct (get_network_interfaces w i) as [nets|e] eqn:Hn.
    2:{ left. exists m, e, [EvGetMetrics; EvNetworkInterfaces].
        repeat split; [|left; reflexivity].
        unfold node_body. py_unfold. rewrite Hm, Hn. reflexivity. }
    destruct (get_model_and_chip w i) as [ids|e] eqn:Hi.
    2:{ left. exists m, e, [EvGetMetrics; EvNetworkInterfaces; EvModelAndChip].
        repeat split; [|right; left; reflexivity].
        unfold node_body. py_unfold. rewrite Hm, Hn, Hi. reflexivity. }
    destruct (get_friendly_name w i) as [name|e] eqn:Hf.
    2:{ left. exists m, e,
          [EvGetMetrics; EvNetworkInterfaces; EvModelAndChip; EvFriendlyName].
        repeat split; [|right; right; left; reflexivity].
        unfold node_body. py_unfold. rewrite Hm, Hn, Hi, Hf. reflexivity. }
    destruct (get_memory_profile w i) as [[mem|e] tm] eqn:Hp.
    + right. destruct (get_memory_profile_done w i mem) as [o Ho];
        [rewrite Hp; reflexivity|].
      exists m, nets, ids, name, mem, o. repeat split; try reflexivity; try congruence.
      apply node_body_reaches_sink; try assumption. rewrite Hm. reflexivity.
    + left. pose proof (get_memory_profile_no_sink w i) as H0. rewrite Hp in H0.
      exists m, e,
        ([EvGetMetrics; EvNetworkInterfaces; EvModelAndChip; EvFriendlyName] ++ tm).
      split; [reflexivity|]. split; [|split].
      * unfold node_body. py_unfold. rewrite Hm, Hn, Hi, Hf, Hp. reflexivity.
      * cbn [snd] in H0. rewrite count_app, H0. reflexivity.
      * right; right; right. reflexivity.
  - left. split; [reflexivity|]. apply node_body_absent. rewrite Hm. reflexivity.
  - right. left. exists e. split; [reflexivity|].
    unfold node_body. py_unfold. rewrite Hm. reflexivity.
Qed.

Lemma node_body_sink cb w i : count is_sink (snd (node_body cb w i)) <= 1.
Proof.
  destruct (node_body_cases cb w i)
    as [[_ ->] | [(e & _ & ->) | [(m & e & t & _ & -> & H0 & _) | H]]].
  - unfold count. cbn. lia.
  - unfold count. cbn. lia.
  - cbn [snd]. lia.
  - destruct H as (m & nets & ids & name & mem & o & _ & _ & _ & _ & _ & ->).
    unfold count. cbn. lia.
Qed.

(** *** One tick of either loop *)

Lemma try_block_counts l w i :
  count is_sink (snd (try_block l w i)) <= 1 /\
  count is_log (snd (try_block l w i)) = 0 /\
  count is_sleep (snd (try_block l w i)) = 0.
Proof.
  destruct l as [cb iv|cb]; cbn [try_block].
  - split; [apply memory_body_sink | apply memory_body_quiet].
  - split; [apply node_body_sink | apply node_body_quiet].
Qed.

Lemma tick_shape l w i :
  fst (tick l w i) =
    match fst (try_block l w i) with
    | Done c => Done c
    | Raise e => if handles l e then Done Continue else Raise e
    end /\
  exists mid,
    snd (tick l w i) = snd (try_block l w i) ++ mid ++ [EvSleep (interval l)] /\
    count is_sink mid = 0 /\ count is_sleep mid = 0 /\ count is_log mid <= 1.
Proof.
  destruct l as [cb iv|cb]; cbn [tick try_block handles interval].
  - rewrite memory_tick_eq. destruct (memory_body cb w i) as [[c|e] t].
    + split; [reflexivity|]. exists []. repeat split; unfold count; cbn; lia.
    + destruct e; (split; [reflexivity|]);
        first [ exists []; repeat split; unfold count; cbn; lia
              | eexists [_]; repeat split; unfold count; cbn; lia ].
  - rewrite node_tick_eq. destruct (node_body cb w i) as [[c|e] t].
    + split; [reflexivity|]. exists []. repeat split; unfold count; cbn; lia.
    + destruct e; (split; [reflexivity|]);
        first [ exists []; repeat split; unfold count; cbn; lia
              | eexists [_]; repeat split; unfold count; cbn; lia ].
Qed.

Lemma tick_counts l w i :
  count is_sleep (snd (tick l w i)) = 1 /\
  count is_sink (snd (tick l w i)) <= 1 /\
  count is_log (snd (tick l w i)) <= 1 /\
  last (snd (tick l w i)) = Some (EvSleep (interval l)).
Proof.
  destruct (tick_shape l w i) as (_ & mid & -> & Hk & Hs & Hl).
  destruct (try_block_counts l w i) as (Bk & Bl & Bs).
  pose proof (eq_refl : count is_sink [EvSleep (interval l)] = 0) as E1.
  pose proof (eq_refl : count is_log [EvSleep (interval l)] = 0) as E2.
  pose proof (eq_refl : count is_sleep [EvSleep (interval l)] = 1) as E3.
  rewrite !count_app, Bl, Bs, Hk, Hs, E1, E2, E3.
  repeat split; try lia.
  rewrite app_assoc. apply last_snoc.
Qed.

Lemma tick_continue_iff l w i :
  fst (tick l w i) = Done Continue <-> survivable l w i.
Proof.
  destruct (tick_shape l w i) as [-> _]. unfold survivable.
  destruct (fst (try_block l w i)) as [c|e].
  - split; [intros [= ->]; left; reflexivity|].
    intros [[= ->] | (e & He & _)]; [reflexivity|discriminate].
  - split.
    + destruct (handles l e) eqn:Hh; [|discriminate].
      intros _. right. exists e. split; [reflexivity|exact Hh].
    + intros [H | (e' & [= <-] & ->)]; [discriminate|reflexivity].
Qed.

Lemma tick_raise_inv l w i e :
  fst (tick l w i) = Raise e ->
  fst (try_block l w i) = Raise e /\ handles l e = false.
Proof.
  destruct (tick_shape l w i) as [-> _].
  destruct (fst (try_block l w i)) as [c|e']; [discriminate|].
  destruct (handles l e') eqn:Hh; [discriminate|].
  intros [= ->]. split; [reflexivity|exact Hh].
Qed.

Lemma memory_tick_no_return cb iv w i :
  fst (memory_tick cb iv w i) <> Done Return.
Proof.
  destruct (tick_shape (MemoryLoop cb iv) w i) as [Hf _].
  cbn [tick try_block handles] in Hf. rewrite Hf, memory_body_eq.
  destruct (get_memory_profile w i) as [[mem|e] t]; cbn [fst].
  - destruct (cb i mem) as [[]|e]; [discriminate|].
    destruct (memory_handles e); discriminate.
  - destruct (memory_handles e); discriminate.
Qed.

Lemma node_tick_return_iff cb w i :
  fst (node_tick cb w i) = Done Return <-> fst (get_metrics_async w i) = Done None.
Proof.
  split; [|intros Hm; rewrite (node_tick_absent cb w i Hm); reflexivity].
  destruct (tick_shape (NodeLoop cb) w i) as [Hf _].
  cbn [tick try_block handles] in Hf. rewrite Hf.
  destruct (node_body_cases cb w i)
    as [[Hm _] | [(e & _ & ->) | [(m & e & t & _ & -> & _) | H]]].
  - intros _. exact Hm.
  - cbn [fst]. destruct (node_handles e); discriminate.
  - cbn [fst]. destruct (node_handles e); discriminate.
  - destruct H as (m & nets & ids & name & mem & o & _ & _ & _ & _ & _ & ->).
    cbn [fst]. destruct (cb i _) as [[]|e]; [discriminate|].
    destruct (node_handles e); discriminate.
Qed.

(** *** How the loops end *)

(** X8: the memory loop never ends by returning: after any number of
    iterations it is still running or an exception has left it. *)
Theorem memory_loop_never_returns
    (cb : nat -> MemoryPerformanceProfile -> completion unit)
    (iv : Q) (w : World) (fuel : nat) :
  fst (start_polling_memory_metrics cb iv w fuel) <> Stopped.
Proof.
  unfold start_polling_memory_metrics.
  destruct (while_true fuel (memory_tick cb iv w) 0) as [s t] eqn:Hrun.
  intros Hs. cbn [fst] in Hs. subst s.
  destruct (while_true_inv _ _ _ _ _ Hrun) as (n & _ & _ & k & _ & Hlast & _).
  exact (memory_tick_no_return cb iv w (0 + k) Hlast).
Qed.

(** X9: the node loop returns only because the metrics source is
    absent, and it does so at the first tick at which it is: if the
    loop has stopped, there is a tick [k] within the iterations run at
    which the source yielded [None], it yielded [None] at no earlier
    tick, and the trace is that of the first [k] ticks followed by the
    metrics query and the sleep of the exit tick. *)
Theorem node_loop_stops_only_when_absent
    (cb : nat -> NodePerformanceProfile -> completion unit)
    (w : World) (fuel : nat) :
  fst (start_polling_node_metrics cb w fuel) = Stopped ->
  exists k,
    k < fuel /\
    fst (get_metrics_async w k) = Done None /\
    (forall j, j < k -> fst (get_metrics_async w j) <> Done None) /\
    fst (start_polling_node_metrics cb w k) = Running k /\
    snd (start_polling_node_metrics cb w fuel) =
      snd (start_polling_node_metrics cb w k) ++
      [EvGetMetrics; EvSleep node_poll_interval_s].
Proof.
  unfold start_polling_node_metrics at 1.
  destruct (while_true fuel (node_tick cb w) 0) as [s t] eqn:Hrun.
  cbn [fst]. intros ->.
  destruct (while_true_inv _ _ _ _ _ Hrun) as (n & Hn & _ & k & -> & Hlast & Hall).
  cbn [Nat.add] in Hlast, Hall. apply node_tick_return_iff in Hlast.
  assert (Hk : fst (start_polling_node_metrics cb w k) = Running k).
  { apply while_true_all_continue. intros j Hj. apply Hall. lia. }
  exists k. split; [lia|]. split; [exact Hlast|]. split; [|split; [exact Hk|]].
  - intros j Hj Habs. apply (node_tick_return_iff cb) in Habs.
    rewrite (Hall j) in Habs by lia. discriminate.
  - destruct (start_polling_node_metrics cb w k) as [sk tk] eqn:Hstart.
    cbn [fst snd] in *. subst sk.
    rewrite (node_loop_absent_exit cb w k tk fuel Hstart Hlast) by lia.
    reflexivity.
Qed.

Lemma node_loop_stops_only_when_absent_witness :
  exists k,
    k < 5 /\
    fst (get_metrics_async (mac two_then_absent) k) = Done None /\
    (forall j, j < k -> fst (get_metrics_async (mac two_then_absent) j) <> Done None) /\
    fst (start_polling_node_metrics quiet_sink (mac two_then_absent) k) = Running k /\
    snd (start_polling_node_metrics quiet_sink (mac two_then_absent) 5) =
      snd (start_polling_node_metrics quiet_sink (mac two_then_absent) k) ++
      [EvGetMetrics; EvSleep node_poll_interval_s].
Proof.
  apply (node_loop_stops_only_when_absent quiet_sink (mac two_then_absent) 5).
  vm_compute. reflexivity.
Defined.

(** X10: an exception leaves a loop only if it was raised in the [try]
    block of one of the iterations run and the loop has no [except]
    clause for its class. *)
Theorem crash_only_by_unhandled
    (l : polling_loop) (w : World) (fuel : nat) (e : exn) :
  fst (run l w fuel) = Crashed e ->
  handles l e = false /\
  exists k, k < fuel /\ fst (try_block l w k) = Raise e.
Proof.
  rewrite run_eq.
  destruct (while_true fuel (tick l w) 0) as [s t] eqn:Hrun.
  cbn [fst]. intros ->.
  destruct (while_true_inv _ _ _ _ _ Hrun) as (n & Hn & _ & k & -> & Hlast & _).
  cbn [Nat.add] in Hlast. apply tick_raise_inv in Hlast. destruct Hlast as [Hr Hh].
  split; [exact Hh|]. exists k. split; [lia|exact Hr].
Qed.

Lemma crash_only_by_unhandled_witness :
  handles (MemoryLoop quiet_sink (1 # 2)) ValueError = false /\
  exists k, k < 3 /\
            fst (try_block (MemoryLoop quiet_sink (1 # 2)) misconfigured_linux k) =
              Raise ValueError.
Proof.
  apply (crash_only_by_unhandled
           (MemoryLoop quiet_sink (1 # 2)) misconfigured_linux 3 ValueError).
  vm_compute. reflexivity.
Defined.

(** X11: after [n] iterations a loop is still running exactly when in
    each of them the [try] block completed without returning or raised
    an exception of a class the loop has an [except] clause for. *)
Theorem running_iff_survivable (l : polling_loop) (w : World) (n : nat) :
  fst (run l w n) = Running n <-> forall i, i < n -> survivable l w i.
Proof.
  rewrite run_eq. split.
  - destruct (while_true n (tick l w) 0) as [s t] eqn:Hrun.
    cbn [fst]. intros ->.
    destruct (while_true_inv _ _ _ _ _ Hrun) as (m & _ & _ & -> & _ & Hall).
    intros i Hi. apply tick_continue_iff, Hall. lia.
  - intros Hall. apply while_true_all_continue.
    intros i Hi. apply tick_continue_iff, Hall, Hi.
Qed.

Lemma running_iff_survivable_witness :
  fst (run (NodeLoop quiet_sink) (mac timing_out) 4) = Running 4 <->
  forall i, i < 4 -> survivable (NodeLoop quiet_sink) (mac timing_out) i.
Proof.
  exact (running_iff_survivable (NodeLoop quiet_sink) (mac timing_out) 4).
Defined.

(** *** Pacing *)

Lemma ticks_counts l w n : forall i,
  count is_sleep (concat (map (fun j => snd (tick l w j)) (seq i n))) = n /\
  count is_sink (concat (map (fun j => snd (tick l w j)) (seq i n))) <= n /\
  count is_log (concat (map (fun j => snd (tick l w j)) (seq i n))) <= n.
Proof.
  induction n as [|n IH]; intros i; [repeat split; reflexivity|].
  cbn [seq map concat]. rewrite !count_app.
  destruct (tick_counts l w i) as (Hs & Hk & Hl & _).
  destruct (IH (S i)) as (IHs & IHk & IHl). lia.
Qed.

(** X12: in any run of either loop every iteration that was started
    ends with one sleep of the loop's interval, and the sink is called
    and the log written at most once per iteration: the trace holds at
    most as many sleeps as iterations were allowed, at most as many sink
    calls as sleeps, at most as many log entries as sleeps, and, if any
    iteration ran, its last action is the sleep. *)
Theorem sink_paced_by_sleep (l : polling_loop) (w : World) (fuel : nat) :
  count is_sleep (snd (run l w fuel)) <= fuel /\
  count is_sink (snd (run l w fuel)) <= count is_sleep (snd (run l w fuel)) /\
  count is_log (snd (run l w fuel)) <= count is_sleep (snd (run l w fuel)) /\
  (0 < fuel -> last (snd (run l w fuel)) = Some (EvSleep (interval l))).
Proof.
  rewrite run_eq.
  destruct (while_true fuel (tick l w) 0) as [s t] eqn:Hrun. cbn [snd].
  destruct (while_true_inv _ _ _ _ _ Hrun) as (n & Hn & -> & Hs).
  destruct (ticks_counts l w n 0) as (Hsl & Hsk & Hlg).
  split; [lia|]. split; [lia|]. split; [lia|].
  intros Hfuel.
  assert (exists k, n = S k) as [k ->].
  { destruct s as [m| |e].
    - destruct Hs as (-> & _). exists (fuel - 1). lia.
    - destruct Hs as (k & -> & _). exists k. reflexivity.
    - destruct Hs as (k & -> & _). exists k. reflexivity. }
  rewrite seq_S, map_app, concat_app. cbn [Nat.add map concat].
  rewrite app_nil_r.
  destruct (tick_shape l w k) as (_ & mid & -> & _).
  rewrite !app_assoc. apply last_snoc.
Qed.

Lemma sink_paced_by_sleep_witness :
  count is_sleep (snd (run (NodeLoop quiet_sink) (mac two_then_absent) 6)) <= 6 /\
  count is_sink (snd (run (NodeLoop quiet_sink) (mac two_then_absent) 6)) <=
    count is_sleep (snd (run (NodeLoop quiet_sink) (mac two_then_absent) 6)) /\
  count is_log (snd (run (NodeLoop quiet_sink) (mac two_then_absent) 6)) <=
    count is_sleep (snd (run (NodeLoop quiet_sink) (mac two_then_absent) 6)) /\
  (0 < 6 -> last (snd (run (NodeLoop quiet_sink) (mac two_then_absent) 6)) =
            Some (EvSleep (interval (NodeLoop quiet_sink)))).
Proof.
  exact (sink_paced_by_sleep (NodeLoop quiet_sink) (mac two_then_absent) 6).
Defined.

(** *** What reaches the node sink *)



Lemma get_metrics_async_generic w i :
  lower (platform_system w) <> "darwin" ->
  fst (get_metrics_async w i) =
  match _collect_generic_metrics (python w) (psutil w i) with
  | Done m => Done (Some m)
  | Raise e => Raise e
  end.
Proof.
  intros Hp. apply String.eqb_neq in Hp.
  unfold get_metrics_async. py_unfold. rewrite Hp.
  destruct (_collect_generic_metrics (python w) (psutil w i)); reflexivity.
Qed.



(** *** The sampler *)

(** X14: on a platform other than darwin, an exception of the sensor
    subsystem that the sampler does not swallow and the node loop has
    no [except] clause for (an [AttributeError] where psutil has no
    [sensors_temperatures], for one) ends the node loop at that tick:
    the sink is not called, nothing is logged, and the exception leaves
    the loop after the sleep. *)
Theorem unswallowed_sensor_failure_ends_node_loop
    (cb : nat -> NodePerformanceProfile -> completion unit)
    (w : World) (k fuel : nat) (t : list event) (e : exn) :
  lower (platform_system w) <> "darwin" ->
  sensors_temperatures (psutil w k) = Raise e ->
  sampler_swallows e = false ->
  node_handles e = false ->
  start_polling_node_metrics cb w k = (Running k, t) ->
  k < fuel ->
  start_polling_node_metrics cb w fuel =
  (Crashed e, t ++ [EvGetMetrics; EvSleep node_poll_interval_s]).
Proof.
  intros Hplat Hsens Hsw Hh Hrun Hlt.
  assert (Hm : fst (get_metrics_async w k) = Raise e).
  { rewrite (get_metrics_async_generic w k Hplat).
    unfold _collect_generic_metrics. rewrite Hsens.
    destruct e; try discriminate; reflexivity. }
  assert (Hb : node_body cb w k = (Raise e, [EvGetMetrics])).
  { destruct (node_body_cases cb w k)
      as [[Hm' _] | [(e' & Hm' & Hb) | [(m & e' & t' & Hm' & _) | H]]];
      try congruence.
    destruct H as (m & nets & ids & name & mem & o & Hm' & _). congruence. }
  unfold start_polling_node_metrics in *.
  replace fuel with (S k + (fuel - S k)) by lia.
  apply while_true_final; [|discriminate].
  rewrite (while_true_step _ k 0 t Hrun). cbn [Nat.add].
  rewrite node_tick_eq, Hb. destruct e; try discriminate; reflexivity.
Qed.

Lemma unswallowed_sensor_failure_ends_node_loop_witness :
  start_polling_node_metrics quiet_sink sensorless_linux 3 =
  (Crashed AttributeError, [] ++ [EvGetMetrics; EvSleep node_poll_interval_s]).
Proof.
  apply (unswallowed_sensor_failure_ends_node_loop quiet_sink sensorless_linux 0 3).
  - vm_compute. discriminate.
  - reflexivity.
  - reflexivity.
  - reflexivity.
  - reflexivity.
  - lia.
Defined.

Lemma omap_current_filter readings :
  omap current (List.filter has_value readings) = omap current readings.
Proof.
  induction readings as [|r rest IH]; [reflexivity|].
  cbn. unfold has_value at 1. destruct (current r) as [v|] eqn:Hr; cbn.
  - rewrite Hr, IH. reflexivity.
  - exact IH.
Qed.

Lemma flat_temps_without_unvalued temps :
  flat_temps (without_unvalued temps) = flat_temps temps.
Proof.
  unfold flat_temps, without_unvalued.
  induction temps as [|[g readings] rest IH]; [reflexivity|].
  cbn in *. rewrite omap_current_filter, IH. reflexivity.
Qed.

(** X15: readings that carry no value have no influence on the sample:
    the sampler returns the same record when they are removed from
    every sensor group. *)
Theorem unvalued_readings_are_ignored
    (py : Interpreter) (ps : Psutil) (temps : list (string * list shwtemp)) :
  sensors_temperatures ps = Done temps ->
  _collect_generic_metrics py
    {| cpu_percent := cpu_percent ps; cpu_count := cpu_count ps;
       sensors_temperatures := Done (without_unvalued temps);
       virtual_memory_total := virtual_memory_total ps |} =
  _collect_generic_metrics py ps.
Proof.
  intros Hs. unfold _collect_generic_metrics. rewrite Hs. cbn.
  rewrite flat_temps_without_unvalued. reflexivity.
Qed.

Lemma unvalued_readings_are_ignored_witness :
  _collect_generic_metrics cpython
    {| cpu_percent := cpu_percent two_groups; cpu_count := cpu_count two_groups;
       sensors_temperatures :=
         Done (without_unvalued
                 [("coretemp", [mkShwtemp "core0" (Some 40%float);
                                mkShwtemp "core1" (Some 50%float)]);
                  ("nvme", [mkShwtemp "composite" None;
                            mkShwtemp "sensor1" (Some 60%float)])]);
       virtual_memory_total := virtual_memory_total two_groups |} =
  _collect_generic_metrics cpython two_groups.
Proof.
  apply (unvalued_readings_are_ignored cpython two_groups). reflexivity.
Defined.

(** *** The override variable *)

(** X16: an override variable that is unset and one that is set to the
    empty string are treated alike: [get_memory_profile] reads the
    variable and builds the profile without an override. *)
Theorem unset_or_empty_override_is_no_override (w : World) (i : nat) :
  environ w i !! override_variable = None \/
  environ w i !! override_variable = Some "" ->
  snd (get_memory_profile w i) = [EvGetenv override_variable; EvFromPsutil None].
Proof.
  intros Henv. unfold get_memory_profile, from_psutil. py_unfold.
  destruct Henv as [-> | ->]; cbn;
    destruct (virtual_memory_total (psutil w i)); reflexivity.
Qed.

Lemma unset_or_empty_override_is_no_override_witness :
  snd (get_memory_profile empty_override_linux 0) =
  [EvGetenv override_variable; EvFromPsutil None].
Proof.
  apply (unset_or_empty_override_is_no_override empty_override_linux 0).
  right. vm_compute. reflexivity.
Defined.

(** X17: an override that is not empty and that [int] refuses with
    [ValueError] makes [get_memory_profile] raise [ValueError] right
    after reading the variable, before psutil is consulted.  In the
    memory loop the tick is then the read and the sleep, and the
    exception leaves the loop; in the node loop the sink is not called
    in that tick either. *)
Theorem rejected_override_raises (w : World) (i : nat) (s : string) :
  environ w i !! override_variable = Some s ->
  truthy s = true ->
  int (python w) s = Raise ValueError ->
  get_memory_profile w i = (Raise ValueError, [EvGetenv override_variable]) /\
  (forall cb iv,
     memory_tick cb iv w i =
     (Raise ValueError, [EvGetenv override_variable; EvSleep iv])) /\
  (forall cb, count is_sink (snd (node_tick cb w i)) = 0).
Proof.
  intros Henv Htruthy Hint.
  assert (Hp : get_memory_profile w i = (Raise ValueError, [EvGetenv override_variable])).
  { unfold get_memory_profile. py_unfold. rewrite Henv, Htruthy, Hint.
    reflexivity. }
  split; [exact Hp|]. split.
  - intros cb iv. rewrite memory_tick_eq, memory_body_eq, Hp. reflexivity.
  - intros cb.
    destruct (tick_shape (NodeLoop cb) w i) as (_ & mid & Ht & Hmid & _).
    cbn [tick try_block interval] in Ht. rewrite Ht, !count_app, Hmid.
    change (count is_sink [EvSleep node_poll_interval_s]) with 0.
    destruct (node_body_cases cb w i)
      as [[_ ->] | [(e & _ & ->) | [(m & e & t & _ & -> & H0 & _) | H]]];
      try reflexivity.
    + cbn [snd]. rewrite H0. reflexivity.
    + destruct H as (m & nets & ids & name & mem & o & _ & _ & _ & _ & Hp' & _).
      rewrite Hp in Hp'. discriminate.
Qed.

Lemma rejected_override_raises_witness :
  get_memory_profile misconfigured_linux 0 =
    (Raise ValueError, [EvGetenv override_variable]) /\
  (forall cb iv,
     memory_tick cb iv misconfigured_linux 0 =
     (Raise ValueError, [EvGetenv override_variable; EvSleep iv])) /\
  (forall cb, count is_sink (snd (node_tick cb misconfigured_linux 0)) = 0).
Proof.
  apply (rejected_override_raises misconfigured_linux 0 "4GB");
    vm_compute; reflexivity.
Defined.

End ProfileMore.
